(** * QuickStrap-NFC: the authenticated Telegram bot ([telegram_bot.py])

    A shallow embedding of the authentication core of [telegram_bot.py]:
    the set of authenticated users, the credential table, the three-step
    login conversation, the [require_auth] decorator and the handler
    table that [main] registers, followed by the properties of the
    specification that concern them.

    Conventions.
    - A Python [str] is a Rocq [string] holding its UTF-8 bytes.
    - A Python [int] is a [Z]; a function returning [int] or [None]
      returns [option Z].
    - [Set[int]] is a [gset Z], a [dict] is a [gmap].
    - Handlers run in the monad [M]: the bot state is threaded through
      and a Python exception is the outcome [Raise]. *)

From Stdlib Require Import Ascii.
From stdpp Require Import gmap strings pretty.

Open Scope string_scope.
Open Scope list_scope.
Open Scope Z_scope.

(** ** Python primitives used by the bot *)

Module Py.

(** One-byte whitespace of [str.isspace]: U+0009..U+000D,
    U+001C..U+0020. *)
Definition isspace1 (a : ascii) : bool :=
  let n := nat_of_ascii a in
  ((9 <=? n)%nat && (n <=? 13)%nat) || ((28 <=? n)%nat && (n <=? 32)%nat).

(** Two-byte whitespace: U+0085 (C2 85) and U+00A0 (C2 A0). *)
Definition isspace2 (a b : ascii) : bool :=
  let m := nat_of_ascii a in
  let n := nat_of_ascii b in
  (m =? 194)%nat && ((n =? 133)%nat || (n =? 160)%nat).

(** Three-byte whitespace: U+1680 (E1 9A 80), U+2000..U+200A
    (E2 80 80..8A), U+2028, U+2029 (E2 80 A8, A9), U+202F (E2 80 AF),
    U+205F (E2 81 9F) and U+3000 (E3 80 80). *)
Definition isspace3 (a b c : ascii) : bool :=
  let l := nat_of_ascii a in
  let m := nat_of_ascii b in
  let n := nat_of_ascii c in
  ((l =? 225)%nat && (m =? 154)%nat && (n =? 128)%nat)
  || ((l =? 226)%nat && (m =? 128)%nat
      && (((128 <=? n)%nat && (n <=? 138)%nat)
          || (n =? 168)%nat || (n =? 169)%nat || (n =? 175)%nat))
  || ((l =? 226)%nat && (m =? 129)%nat && (n =? 159)%nat)
  || ((l =? 227)%nat && (m =? 128)%nat && (n =? 128)%nat).

(** Drops the characters at the front of [s] for which the given tests
    on their first one, two or three bytes answer true. *)
Fixpoint drop_while
    (p1 : ascii → bool) (p2 : ascii → ascii → bool)
    (p3 : ascii → ascii → ascii → bool) (s : string) : string :=
  match s with
  | "" => ""
  | String a s1 =>
    if p1 a then drop_while p1 p2 p3 s1 else
    match s1 with
    | "" => s
    | String b s2 =>
      if p2 a b then drop_while p1 p2 p3 s2 else
      match s2 with
      | "" => s
      | String c s3 => if p3 a b c then drop_while p1 p2 p3 s3 else s
      end
    end
  end.

(** [str.lstrip()] *)
Definition lstrip (s : string) : string :=
  drop_while isspace1 isspace2 isspace3 s.

(** [str.rstrip()]: the same scan on the reversed bytes, where a
    multi-byte character shows its last byte first. *)
Definition rstrip (s : string) : string :=
  String.rev
    (drop_while isspace1 (λ b a, isspace2 a b) (λ c b a, isspace3 a b c)
                (String.rev s)).

(** [str.strip()] *)
Definition strip (s : string) : string := rstrip (lstrip s).

(** [s.startswith(p)] *)
Fixpoint startswith (p s : string) : bool :=
  match p, s with
  | "", _ => true
  | String a p', String b s' => bool_decide (a = b) && startswith p' s'
  | String _ _, "" => false
  end.

(** [sub in s] for two strings. *)
Fixpoint str_in (sub s : string) : bool :=
  startswith sub s
  || match s with
     | "" => false
     | String _ s' => str_in sub s'
     end.

(** [str.lower()] on the ASCII letters. *)
Definition lower_ascii (a : ascii) : ascii :=
  let n := nat_of_ascii a in
  if ((65 <=? n)%nat && (n <=? 90)%nat)%bool then ascii_of_nat (n + 32) else a.

Fixpoint lower (s : string) : string :=
  match s with
  | "" => ""
  | String a s' => String (lower_ascii a) (lower s')
  end.

(** [str(n)] for an [int]. *)
Definition str (n : Z) : string := pretty n.

(** [sep.join(l)] *)
Fixpoint join (sep : string) (l : list string) : string :=
  match l with
  | [] => ""
  | [x] => x
  | x :: l' => x +:+ sep +:+ join sep l'
  end.

(** The line feed that the source writes [\n]. *)
Definition nl : string := String (ascii_of_nat 10) "".

End Py.

(** ** The bot state, the transport and the handler monad *)

(** An inbound text message, as python-telegram-bot hands it to a
    handler: [update.effective_user.id], the chat it was sent in,
    the message's id and [update.message.text]. [command] is the name of
    the bot command that Telegram marks at the start of the text
    ([Some "login"] for [/login]), which is what [CommandHandler] and
    [filters.COMMAND] look at, and [None] for plain text.
    [delete_raises] tells whether the transport refuses
    [update.message.delete()] for this message. Updates that carry no
    text message reach none of the handlers of [main] and are left out. *)
Record Update := {
  effective_user_id : Z;
  effective_chat_id : Z;
  message_id : Z;
  text : string;
  command : option string;
  delete_raises : bool;
}.

(** What a handler sends to the outside: replies, deletions and log
    records. *)
Inductive Effect :=
| SendText (chat_id : Z) (body : string)
| DeleteMessage (chat_id : Z) (msg_id : Z)
| LogInfo (line : string)
| LogWarning (line : string).

(** The process-wide state: the module-level set [authenticated_users]
    (shared with every [AuthenticatedBot]), the per-user [user_data]
    dictionaries that [context.user_data] reads and writes, the table of
    the login [ConversationHandler], keyed by chat and user, and the
    effects emitted so far, oldest first. *)
Record BotState := {
  authenticated_users : gset Z;
  user_data : gmap Z (gmap string string);
  conversations : gmap (Z * Z) Z;
  trace : list Effect;
}.

(** Cold start: nobody is logged in, no conversation is open. *)
Definition initial_state : BotState :=
  {| authenticated_users := ∅; user_data := ∅; conversations := ∅; trace := [] |}.

Definition set_authenticated_users (s : gset Z) (st : BotState) : BotState :=
  {| authenticated_users := s; user_data := user_data st;
     conversations := conversations st; trace := trace st |}.

Definition set_user_data (d : gmap Z (gmap string string)) (st : BotState) : BotState :=
  {| authenticated_users := authenticated_users st; user_data := d;
     conversations := conversations st; trace := trace st |}.

Definition set_conversations (c : gmap (Z * Z) Z) (st : BotState) : BotState :=
  {| authenticated_users := authenticated_users st; user_data := user_data st;
     conversations := c; trace := trace st |}.

Definition emit (e : Effect) (st : BotState) : BotState :=
  {| authenticated_users := authenticated_users st; user_data := user_data st;
     conversations := conversations st; trace := trace st ++ [e] |}.

(** The dictionary [context.user_data] of user [uid] (empty until
    something is stored in it). *)
Definition user_data_of (uid : Z) (st : BotState) : gmap string string :=
  default ∅ (user_data st !! uid).

Inductive Exn :=
| KeyError
| TelegramError.

Inductive Outcome (A : Type) :=
| Return (a : A)
| Raise (e : Exn).
Arguments Return {A} a.
Arguments Raise {A} e.

Definition M (A : Type) : Type := BotState → Outcome A * BotState.

Definition ret {A} (a : A) : M A := λ st, (Return a, st).

(** Sequencing: an exception ends the handler with the state reached so
    far. *)
Definition bind {A B} (m : M A) (f : A → M B) : M B := λ st,
  match m st with
  | (Return a, st') => f a st'
  | (Raise e, st') => (Raise e, st')
  end.

Declare Scope M_scope.
Delimit Scope M_scope with M.
Bind Scope M_scope with M.
Notation "x ← y ; z" := (bind y (λ x, z))
  (at level 20, y at level 100, z at level 200, only parsing) : M_scope.
Notation "x ;; z" := (bind x (λ _, z))
  (at level 100, z at level 200, only parsing, right associativity) : M_scope.
Open Scope M_scope.

Definition raise {A} (e : Exn) : M A := λ st, (Raise e, st).

(** [try: body except: handler] with a bare [except]. *)
Definition try_except {A} (body handler : M A) : M A := λ st,
  match body st with
  | (Return a, st') => (Return a, st')
  | (Raise _, st') => handler st'
  end.

Definition pass : M unit := ret ().

(** [uid in self.authenticated_users] *)
Definition user_in_authenticated_users (uid : Z) : M bool := λ st,
  (Return (bool_decide (uid ∈ authenticated_users st)), st).

(** [self.authenticated_users.add(uid)] *)
Definition authenticated_users_add (uid : Z) : M unit := λ st,
  (Return (), set_authenticated_users ({[uid]} ∪ authenticated_users st) st).

(** [self.authenticated_users.remove(uid)]: [set.remove] raises
    [KeyError] on an element that is not in the set. *)
Definition authenticated_users_remove (uid : Z) : M unit := λ st,
  if bool_decide (uid ∈ authenticated_users st)
  then (Return (), set_authenticated_users (authenticated_users st ∖ {[uid]}) st)
  else (Raise KeyError, st).

(** [len(self.authenticated_users)] *)
Definition len_authenticated_users : M Z := λ st,
  (Return (Z.of_nat (size (authenticated_users st))), st).

(** The members of [self.authenticated_users] in iteration order. *)
Definition iter_authenticated_users : M (list Z) := λ st,
  (Return (elements (authenticated_users st)), st).

(** [context.user_data.get(key)] *)
Definition user_data_get (update : Update) (key : string) : M (option string) := λ st,
  (Return (user_data_of (effective_user_id update) st !! key), st).

(** [context.user_data[key] = value] *)
Definition user_data_setitem (update : Update) (key value : string) : M unit := λ st,
  let uid := effective_user_id update in
  (Return (), set_user_data (<[uid := <[key := value]> (user_data_of uid st)]> (user_data st)) st).

(** [await update.message.reply_text(body)] *)
Definition reply_text (update : Update) (body : string) : M unit := λ st,
  (Return (), emit (SendText (effective_chat_id update) body) st).

(** [await update.message.delete()] *)
Definition message_delete (update : Update) : M unit := λ st,
  if delete_raises update then (Raise TelegramError, st)
  else (Return (), emit (DeleteMessage (effective_chat_id update) (message_id update)) st).

Definition logger_info (line : string) : M unit := λ st,
  (Return (), emit (LogInfo line) st).

Definition logger_warning (line : string) : M unit := λ st,
  (Return (), emit (LogWarning line) st).

(** ** Constants of the module *)

(** [USERNAME, PASSWORD = range(2)] *)
Definition USERNAME : Z := 0.
Definition PASSWORD : Z := 1.

(** [ConversationHandler.END] of python-telegram-bot. *)
Definition END : Z := -1.

Definition VALID_CREDENTIALS : gmap string string :=
  {[ "admin" := "admin123"; "user1" := "pass123"; "demo" := "demo123" ]}.

(** [username in VALID_CREDENTIALS], where [username] comes from
    [dict.get] and may be [None], which is not a key of the table. *)
Definition in_VALID_CREDENTIALS (username : option string) : bool :=
  match username with
  | Some u => bool_decide (is_Some (VALID_CREDENTIALS !! u))
  | None => false
  end.

(** [VALID_CREDENTIALS[username]]: indexing raises [KeyError] on a
    missing key. *)
Definition VALID_CREDENTIALS_getitem (username : option string) : M string :=
  match username with
  | Some u =>
    match VALID_CREDENTIALS !! u with
    | Some secret => ret secret
    | None => raise KeyError
    end
  | None => raise KeyError
  end.

(** The test of [receive_password]:
    [username in VALID_CREDENTIALS and VALID_CREDENTIALS[username] == password];
    [and] evaluates its right operand only when the left one is true. *)
Definition verify (username : option string) (password : string) : M bool :=
  if in_VALID_CREDENTIALS username then
    secret ← VALID_CREDENTIALS_getitem username;
    ret (bool_decide (secret = password))
  else ret false.

(** ** The texts the bot sends *)

Module Msg.

Definition already_logged_in_menu : string :=
"🔓 You're already logged in!

Available commands:
/info - Get system information
/stats - View statistics
/users - List users
/data - Get data summary
/logout - Logout from bot".

Definition welcome : string :=
"👋 Welcome to the Authenticated Bot!

🔒 Please login to access commands.
Use /login to authenticate.".

Definition already_logged_in : string :=
  "You're already logged in! Use /logout to logout first.".

Definition login_required : string :=
"🔐 Login Required

Please enter your username:
(Send /cancel to abort)".

Definition ask_password (username : string) : string :=
  "Username: " +:+ username +:+ Py.nl +:+ Py.nl +:+ "Now enter your password:".

Definition login_successful : string :=
"✅ Login successful!

You now have access to all commands:

📊 Information Commands:
/info - Get system information
/stats - View statistics
/users - List users
/data - Get data summary

🔧 Other Commands:
/help - Show this help message
/logout - Logout from bot".

Definition invalid_credentials : string :=
"❌ Invalid credentials!

Please try again with /login".

Definition login_cancelled : string := "Login cancelled.".

Definition logged_out : string :=
"👋 Logged out successfully!
Use /login to login again.".

Definition not_logged_in : string := "You're not logged in.".

Definition help_authenticated : string :=
"📚 Available Commands:

📊 Information Commands:
/info - Get system information
/stats - View statistics
/users - List users
/data - Get data summary

🔧 Other Commands:
/help - Show this help message
/logout - Logout from bot".

Definition help_anonymous : string :=
"🔒 Authentication Required

Please /login first to access commands.

Available after login:
• System information
• Statistics
• User lists
• Data summaries".

Definition authentication_required : string :=
"🔒 Authentication Required

Please /login first to access this command.".

Definition info (active : Z) : string :=
"📊 System Information

• Bot Status: Online
• Version: 1.0.0
• Active Users: " +:+ Py.str active +:+ Py.nl +:+
"• Database: Connected
• Last Update: 2025-10-06".

Definition stats (active : Z) : string :=
"📈 Statistics

• Total Requests: 1,234
• Active Sessions: " +:+ Py.str active +:+ Py.nl +:+
"• Success Rate: 98.5%
• Avg Response Time: 45ms
• Uptime: 99.9%".

Definition user_line (uid : Z) : string := "• User ID: " +:+ Py.str uid.

Definition users (active : Z) (user_list : string) : string :=
  "👥 Active Users (" +:+ Py.str active +:+ ")" +:+ Py.nl +:+ Py.nl +:+
  (if bool_decide (user_list = "") then "No active users" else user_list).

Definition data : string :=
"💾 Data Summary

• Records: 5,678
• Storage Used: 234 MB
• Last Backup: 2h ago
• Data Integrity: ✅ Good
• Sync Status: ✅ Synced".

Definition please_login : string := "🔒 Please /login first to use this bot.".

Definition log_logged_in (user_id : Z) (username : string) : string :=
  "User " +:+ Py.str user_id +:+ " (" +:+ username +:+ ") logged in successfully".

Definition log_failed_login (user_id : Z) : string :=
  "Failed login attempt for user " +:+ Py.str user_id.

Definition log_logged_out (user_id : Z) : string :=
  "User " +:+ Py.str user_id +:+ " logged out".

End Msg.

(** [f"{username}"] for a value read with [dict.get]: [None] prints as
    the word [None]. *)
Definition format_username (username : option string) : string :=
  default "None" username.

(** ** The handlers of [AuthenticatedBot] *)

(** [/start] *)
Definition start (update : Update) : M (option Z) :=
  let user_id := effective_user_id update in
  logged_in ← user_in_authenticated_users user_id;
  if logged_in then
    reply_text update Msg.already_logged_in_menu;;
    ret None
  else
    reply_text update Msg.welcome;;
    ret None.

(** Start login conversation. *)
Definition login_start (update : Update) : M (option Z) :=
  let user_id := effective_user_id update in
  logged_in ← user_in_authenticated_users user_id;
  if logged_in then
    reply_text update Msg.already_logged_in;;
    ret (Some END)
  else
    reply_text update Msg.login_required;;
    ret (Some USERNAME).

(** Receive username and ask for password. *)
Definition receive_username (update : Update) : M (option Z) :=
  let username := Py.strip (text update) in
  user_data_setitem update "username" username;;
  reply_text update (Msg.ask_password username);;
  ret (Some PASSWORD).

(** Verify credentials and complete login. *)
Definition receive_password (update : Update) : M (option Z) :=
  let password := Py.strip (text update) in
  username ← user_data_get update "username";
  let user_id := effective_user_id update in
  try_except (message_delete update) pass;;
  ok ← verify username password;
  (if ok then
     authenticated_users_add user_id;;
     reply_text update Msg.login_successful;;
     logger_info (Msg.log_logged_in user_id (format_username username))
   else
     reply_text update Msg.invalid_credentials;;
     logger_warning (Msg.log_failed_login user_id));;
  ret (Some END).

(** Cancel login process. *)
Definition cancel_login (update : Update) : M (option Z) :=
  reply_text update Msg.login_cancelled;;
  ret (Some END).

(** [/logout] *)
Definition logout (update : Update) : M (option Z) :=
  let user_id := effective_user_id update in
  logged_in ← user_in_authenticated_users user_id;
  if logged_in then
    authenticated_users_remove user_id;;
    reply_text update Msg.logged_out;;
    logger_info (Msg.log_logged_out user_id);;
    ret None
  else
    reply_text update Msg.not_logged_in;;
    ret None.

(** [/help] *)
Definition help_command (update : Update) : M (option Z) :=
  let user_id := effective_user_id update in
  logged_in ← user_in_authenticated_users user_id;
  if logged_in then
    reply_text update Msg.help_authenticated;;
    ret None
  else
    reply_text update Msg.help_anonymous;;
    ret None.

(** The decorator [require_auth]: [require_auth func] is the [wrapper]
    it returns. *)
Definition require_auth (func : Update → M (option Z)) : Update → M (option Z) :=
  λ update,
    let user_id := effective_user_id update in
    logged_in ← user_in_authenticated_users user_id;
    if negb logged_in then
      reply_text update Msg.authentication_required;;
      ret None
    else func update.

(** The bodies that [require_auth] decorates. *)
Definition info_body (update : Update) : M (option Z) :=
  n ← len_authenticated_users;
  reply_text update (Msg.info n);;
  ret None.

Definition stats_body (update : Update) : M (option Z) :=
  n ← len_authenticated_users;
  reply_text update (Msg.stats n);;
  ret None.

Definition users_body (update : Update) : M (option Z) :=
  uids ← iter_authenticated_users;
  let user_list := Py.join Py.nl (Msg.user_line <$> uids) in
  n ← len_authenticated_users;
  reply_text update (Msg.users n user_list);;
  ret None.

Definition data_body (update : Update) : M (option Z) :=
  reply_text update Msg.data;;
  ret None.

Definition info_command : Update → M (option Z) := require_auth info_body.
Definition stats_command : Update → M (option Z) := require_auth stats_body.
Definition users_command : Update → M (option Z) := require_auth users_body.
Definition data_command : Update → M (option Z) := require_auth data_body.

(** Handle messages from non-authenticated users. *)
Definition unauthorized_command (update : Update) : M (option Z) :=
  let user_id := effective_user_id update in
  logged_in ← user_in_authenticated_users user_id;
  if negb logged_in then
    reply_text update Msg.please_login;;
    ret None
  else ret None.

(** ** The handler table of [main]

    python-telegram-bot offers an update to the handlers of a group in
    the order they were added; the first one whose check accepts it
    handles it, and the others are not asked. *)

Definition Callback : Type := Update → M (option Z).

(** [filters.TEXT], [filters.COMMAND], [&] and [~]. *)
Definition filters_TEXT (update : Update) : bool :=
  negb (bool_decide (text update = "")).
Definition filters_COMMAND (update : Update) : bool :=
  bool_decide (is_Some (command update)).
Definition filter_and (f g : Update → bool) (update : Update) : bool :=
  f update && g update.
Definition filter_not (f : Update → bool) (update : Update) : bool :=
  negb (f update).

(** [filters.TEXT & ~filters.COMMAND] *)
Definition TEXT_and_not_COMMAND : Update → bool :=
  filter_and filters_TEXT (filter_not filters_COMMAND).

Inductive BaseHandler :=
| CommandHandler (name : string) (callback : Callback)
| MessageHandler (filter : Update → bool) (callback : Callback).

Inductive Handler :=
| Base (h : BaseHandler)
| ConversationHandler
    (entry_points : list BaseHandler)
    (states : gmap Z (list BaseHandler))
    (fallbacks : list BaseHandler).

(** [handler.check_update(update)]: the callback to run, if the handler
    accepts the update. *)
Definition check_base (h : BaseHandler) (update : Update) : option Callback :=
  match h with
  | CommandHandler name callback =>
    if bool_decide (command update = Some name) then Some callback else None
  | MessageHandler filter callback =>
    if filter update then Some callback else None
  end.

Fixpoint first_accepting (hs : list BaseHandler) (update : Update) : option Callback :=
  match hs with
  | [] => None
  | h :: hs' =>
    match check_base h update with
    | Some callback => Some callback
    | None => first_accepting hs' update
    end
  end.

(** The key of a conversation: chat and user (the defaults [per_chat]
    and [per_user]). *)
Definition conversation_key (update : Update) : Z * Z :=
  (effective_chat_id update, effective_user_id update).

(** [ConversationHandler.check_update]: with no conversation open for
    the key only the entry points are tried; inside a conversation the
    handlers of the current state are tried, then the fallbacks
    ([allow_reentry] is off, so the entry points are not). *)
Definition check_conversation
    (entry_points : list BaseHandler) (states : gmap Z (list BaseHandler))
    (fallbacks : list BaseHandler) (update : Update) (st : BotState) : option Callback :=
  match conversations st !! conversation_key update with
  | None => first_accepting entry_points update
  | Some state =>
    match first_accepting (default [] (states !! state)) update with
    | Some callback => Some callback
    | None => first_accepting fallbacks update
    end
  end.

(** What the conversation handler does with the value its callback
    returns: [None] keeps the state, [END] closes the conversation, any
    other value is the new state. *)
Definition update_state (key : Z * Z) (new_state : option Z) : M unit := λ st,
  match new_state with
  | None => (Return (), st)
  | Some s =>
    if bool_decide (s = END)
    then (Return (), set_conversations (delete key (conversations st)) st)
    else (Return (), set_conversations (<[key := s]> (conversations st)) st)
  end.

Definition handle_conversation (callback : Callback) (update : Update) : M (option Z) :=
  new_state ← callback update;
  update_state (conversation_key update) new_state;;
  ret new_state.

(** The work a handler does on an update, if it accepts it. *)
Definition check_handler (h : Handler) (update : Update) (st : BotState)
  : option (M (option Z)) :=
  match h with
  | Base b => (λ callback : Callback, callback update) <$> check_base b update
  | ConversationHandler entry_points states fallbacks =>
    (λ callback, handle_conversation callback update)
      <$> check_conversation entry_points states fallbacks update st
  end.

(** [Application.process_update] on one group of handlers: [None] when
    no handler accepts the update. *)
Fixpoint process_update_in (hs : list Handler) (update : Update) (st : BotState)
  : option (Outcome (option Z) * BotState) :=
  match hs with
  | [] => None
  | h :: hs' =>
    match check_handler h update st with
    | Some run => Some (run st)
    | None => process_update_in hs' update st
    end
  end.

(** The login conversation built in [main]: its entry points, its
    states and its fallbacks. *)
Definition login_entry_points : list BaseHandler :=
  [CommandHandler "login" login_start].

Definition login_states : gmap Z (list BaseHandler) :=
  {[ USERNAME := [MessageHandler TEXT_and_not_COMMAND receive_username];
     PASSWORD := [MessageHandler TEXT_and_not_COMMAND receive_password] ]}.

Definition login_fallbacks : list BaseHandler :=
  [CommandHandler "cancel" cancel_login].

Definition login_handler : Handler :=
  ConversationHandler login_entry_points login_states login_fallbacks.

(** The handlers in the order [main] adds them. *)
Definition handlers : list Handler :=
  [ Base (CommandHandler "start" start);
    login_handler;
    Base (CommandHandler "logout" logout);
    Base (CommandHandler "help" help_command);
    Base (CommandHandler "info" info_command);
    Base (CommandHandler "stats" stats_command);
    Base (CommandHandler "users" users_command);
    Base (CommandHandler "data" data_command);
    Base (MessageHandler TEXT_and_not_COMMAND unauthorized_command) ].

Definition process_update (update : Update) (st : BotState)
  : option (Outcome (option Z) * BotState) :=
  process_update_in handlers update st.

(** The state after an update; an update that no handler accepts
    changes nothing, and an exception ends the handling of that update
    only. *)
Definition step (st : BotState) (update : Update) : BotState :=
  match process_update update st with
  | Some (_, st') => st'
  | None => st
  end.

(** The state after a sequence of updates, handled one after the
    other. *)
Definition run (updates : list Update) (st : BotState) : BotState :=
  foldl step st updates.

(** ** Events of the specification, as updates *)

(** The command [/name] sent by [user] in [chat] as message [mid]. *)
Definition command_update (chat user mid : Z) (name : string) : Update :=
  {| effective_user_id := user; effective_chat_id := chat; message_id := mid;
     text := "/" +:+ name; command := Some name; delete_raises := false |}.

(** The plain text [body] sent by [user] in [chat] as message [mid];
    [refused] tells whether the transport will refuse to delete it. *)
Definition text_update (chat user mid : Z) (refused : bool) (body : string) : Update :=
  {| effective_user_id := user; effective_chat_id := chat; message_id := mid;
     text := body; command := None; delete_raises := refused |}.

(** The states of the login state machine for a conversation key. *)
Definition Idle (key : Z * Z) (st : BotState) : Prop :=
  conversations st !! key = None.
Definition AwaitingUsername (key : Z * Z) (st : BotState) : Prop :=
  conversations st !! key = Some USERNAME.
Definition AwaitingPassword (key : Z * Z) (st : BotState) : Prop :=
  conversations st !! key = Some PASSWORD.

(** [isAuthenticated] of the specification. *)
Definition isAuthenticated (uid : Z) (st : BotState) : bool :=
  bool_decide (uid ∈ authenticated_users st).

(** The state after the [try: delete() except: pass] of
    [receive_password]: the deletion is recorded unless the transport
    refused it. *)
Definition after_delete (update : Update) (st : BotState) : BotState :=
  if delete_raises update then st
  else emit (DeleteMessage (effective_chat_id update) (message_id update)) st.

(** The candidate username kept for a user between the two steps of a
    login: [context.user_data.get('username')]. *)
Definition stored_username (uid : Z) (st : BotState) : option string :=
  user_data_of uid st !! "username".

(** The bodies of the replies among some effects. *)
Definition sent (es : list Effect) : list string :=
  omap (λ e, match e with SendText _ body => Some body | _ => None end) es.

(** No login attempt data is left for a user in a chat: no pending step
    and no stored candidate username. *)
Definition attempt_destroyed (chat user : Z) (st : BotState) : Prop :=
  Idle (chat, user) st ∧ stored_username user st = None.

(** A callback that changes the membership in [authenticated_users] of
    nobody but the sender of the update. *)
Definition touches_only_caller (callback : Callback) : Prop :=
  ∀ upd st J,
    J ≠ effective_user_id upd →
    isAuthenticated J (callback upd st).2 = isAuthenticated J st.

(** ** Start-up: [main] *)





(** ** Vocabulary of the further properties *)

(** An effect that concerns the sender of the update only: a text sent
    to the chat the update came from, the deletion of the update's own
    message, or a log line. *)
Definition addressed_to (upd : Update) (e : Effect) : Prop :=
  match e with
  | SendText c _ => c = effective_chat_id upd
  | DeleteMessage c m => c = effective_chat_id upd ∧ m = message_id upd
  | LogInfo _ | LogWarning _ => True
  end.

(** Two states with the same sessions, user data and conversations;
    their traces may differ. *)
Definition same_store (st st' : BotState) : Prop :=
  authenticated_users st = authenticated_users st'
  ∧ user_data st = user_data st'
  ∧ conversations st = conversations st'.

(** The conversation table holds only the two states of [main], and a
    conversation waiting for the password has a username stored for its
    user. *)
Definition conversations_wf (st : BotState) : Prop :=
  ∀ chat user s,
    conversations st !! (chat, user) = Some s →
    s = USERNAME ∨ (s = PASSWORD ∧ is_Some (stored_username user st)).

(** Whether the password of an update matches the username stored for
    its sender: the value of the test of [receive_password]. *)
Definition accepted (upd : Update) (st : BotState) : bool :=
  match stored_username (effective_user_id upd) st with
  | Some u => bool_decide (VALID_CREDENTIALS !! u = Some (Py.strip (text upd)))
  | None => false
  end.

(** The outcomes of [process_update], route by route: which handler of
    [main]'s table an update reaches in a state, and what that handler
    leaves. [process_update_handled] shows that every outcome of
    [process_update] is one of these. *)
Inductive Handled (upd : Update) (st : BotState) : Outcome (option Z) * BotState → Prop :=
| Handled_start :
    command upd = Some "start" →
    Handled upd st
      (Return None,
       emit (SendText (effective_chat_id upd)
               (if isAuthenticated (effective_user_id upd) st
                then Msg.already_logged_in_menu else Msg.welcome)) st)
| Handled_help :
    command upd = Some "help" →
    Handled upd st
      (Return None,
       emit (SendText (effective_chat_id upd)
               (if isAuthenticated (effective_user_id upd) st
                then Msg.help_authenticated else Msg.help_anonymous)) st)
| Handled_info :
    command upd = Some "info" →
    Handled upd st
      (Return None,
       emit (SendText (effective_chat_id upd)
               (if isAuthenticated (effective_user_id upd) st
                then Msg.info (Z.of_nat (size (authenticated_users st)))
                else Msg.authentication_required)) st)
| Handled_stats :
    command upd = Some "stats" →
    Handled upd st
      (Return None,
       emit (SendText (effective_chat_id upd)
               (if isAuthenticated (effective_user_id upd) st
                then Msg.stats (Z.of_nat (size (authenticated_users st)))
                else Msg.authentication_required)) st)
| Handled_users :
    command upd = Some "users" →
    Handled upd st
      (Return None,
       emit (SendText (effective_chat_id upd)
               (if isAuthenticated (effective_user_id upd) st
                then Msg.users (Z.of_nat (size (authenticated_users st)))
                       (Py.join Py.nl (Msg.user_line <$> elements (authenticated_users st)))
                else Msg.authentication_required)) st)
| Handled_data :
    command upd = Some "data" →
    Handled upd st
      (Return None,
       emit (SendText (effective_chat_id upd)
               (if isAuthenticated (effective_user_id upd) st
                then Msg.data else Msg.authentication_required)) st)
| Handled_login :
    command upd = Some "login" →
    Idle (conversation_key upd) st →
    Handled upd st
      (if isAuthenticated (effective_user_id upd) st
       then (Return (Some END),
             emit (SendText (effective_chat_id upd) Msg.already_logged_in) st)
       else (Return (Some USERNAME),
             set_conversations (<[conversation_key upd := USERNAME]> (conversations st))
               (emit (SendText (effective_chat_id upd) Msg.login_required) st)))
| Handled_cancel s :
    command upd = Some "cancel" →
    conversations st !! conversation_key upd = Some s →
    Handled upd st
      (Return (Some END),
       set_conversations (delete (conversation_key upd) (conversations st))
         (emit (SendText (effective_chat_id upd) Msg.login_cancelled) st))
| Handled_logout :
    command upd = Some "logout" →
    Handled upd st
      (Return None,
       if isAuthenticated (effective_user_id upd) st
       then emit (LogInfo (Msg.log_logged_out (effective_user_id upd)))
              (emit (SendText (effective_chat_id upd) Msg.logged_out)
                 (set_authenticated_users
                    (authenticated_users st ∖ {[effective_user_id upd]}) st))
       else emit (SendText (effective_chat_id upd) Msg.not_logged_in) st)
| Handled_username :
    command upd = None → text upd ≠ "" →
    AwaitingUsername (conversation_key upd) st →
    Handled upd st
      (Return (Some PASSWORD),
       set_conversations (<[conversation_key upd := PASSWORD]> (conversations st))
         (emit (SendText (effective_chat_id upd)
                  (Msg.ask_password (Py.strip (text upd))))
            (set_user_data
               (<[effective_user_id upd :=
                    <["username" := Py.strip (text upd)]>
                      (user_data_of (effective_user_id upd) st)]> (user_data st)) st)))
| Handled_password :
    command upd = None → text upd ≠ "" →
    AwaitingPassword (conversation_key upd) st →
    Handled upd st
      (Return (Some END),
       set_conversations (delete (conversation_key upd) (conversations st))
         (if accepted upd st
          then emit (LogInfo (Msg.log_logged_in (effective_user_id upd)
                                (format_username
                                   (stored_username (effective_user_id upd) st))))
                 (emit (SendText (effective_chat_id upd) Msg.login_successful)
                    (set_authenticated_users
                       ({[effective_user_id upd]} ∪ authenticated_users st)
                       (after_delete upd st)))
          else emit (LogWarning (Msg.log_failed_login (effective_user_id upd)))
                 (emit (SendText (effective_chat_id upd) Msg.invalid_credentials)
                    (after_delete upd st))))
| Handled_text :
    command upd = None → text upd ≠ "" →
    conversations st !! conversation_key upd ≠ Some USERNAME →
    conversations st !! conversation_key upd ≠ Some PASSWORD →
    Handled upd st
      (Return None,
       if isAuthenticated (effective_user_id upd) st then st
       else emit (SendText (effective_chat_id upd) Msg.please_login) st).

(** ** The model at work on concrete inputs *)

Example strip_spaces : Py.strip "  admin
 " = "admin".
Proof. reflexivity. Qed.

Example strip_inner_space : Py.strip " pass 123 " = "pass 123".
Proof. reflexivity. Qed.

Example strip_no_break_space :
  Py.strip (String (ascii_of_nat 194) (String (ascii_of_nat 160) "demo")) = "demo".
Proof. reflexivity. Qed.

Example verify_admin :
  verify (Some "admin") "admin123" initial_state = (Return true, initial_state).
Proof. reflexivity. Qed.

Example verify_is_case_sensitive :
  verify (Some "Admin") "admin123" initial_state = (Return false, initial_state).
Proof. reflexivity. Qed.

Example verify_does_not_trim :
  verify (Some "admin") "admin123 " initial_state = (Return false, initial_state).
Proof. reflexivity. Qed.

Example getitem_raises :
  VALID_CREDENTIALS_getitem (Some "nouser") initial_state = (Raise KeyError, initial_state).
Proof. reflexivity. Qed.

Example remove_raises :
  authenticated_users_remove 7 initial_state = (Raise KeyError, initial_state).
Proof. reflexivity. Qed.

(** A whole session: login with padded texts, a protected command,
    logout, and the protected command again. *)
Example session_replies :
  sent (trace (run [command_update 7 7 1 "login";
                    text_update 7 7 2 false " admin";
                    text_update 7 7 3 true "admin123 ";
                    command_update 7 7 4 "users";
                    command_update 7 7 5 "logout";
                    command_update 7 7 6 "users"] initial_state)) =
    [Msg.login_required; Msg.ask_password "admin"; Msg.login_successful;
     Msg.users 1 (Msg.user_line 7); Msg.logged_out; Msg.authentication_required].
Proof. vm_compute. reflexivity. Qed.

(** [/login] in the middle of a conversation reaches no handler. *)
Example login_inside_conversation :
  process_update (command_update 7 7 2 "login")
    (step initial_state (command_update 7 7 1 "login")) = None.
Proof. reflexivity. Qed.

(** ** Routing: which handler an update reaches *)

Section Routing.

Lemma login_states_lookup (s : Z) :
  default [] (login_states !! s) =
    if bool_decide (s = USERNAME)
    then [MessageHandler TEXT_and_not_COMMAND receive_username]
    else if bool_decide (s = PASSWORD)
    then [MessageHandler TEXT_and_not_COMMAND receive_password]
    else [].
Proof.
  unfold login_states.
  repeat case_bool_decide; subst; simplify_map_eq; done.
Qed.

Variable upd : Update.

Lemma check_command_eq name callback :
  command upd = Some name →
  check_base (CommandHandler name callback) upd = Some callback.
Proof. intros H. simpl. by rewrite bool_decide_eq_true_2. Qed.

Lemma check_command_ne name name' callback :
  command upd = Some name' → name ≠ name' →
  check_base (CommandHandler name callback) upd = None.
Proof.
  intros H Hne. simpl. rewrite bool_decide_eq_false_2; [done|].
  rewrite H. congruence.
Qed.

Lemma check_command_text name callback :
  command upd = None →
  check_base (CommandHandler name callback) upd = None.
Proof.
  intros H. simpl. rewrite bool_decide_eq_false_2; [done|]. by rewrite H.
Qed.

Lemma check_message_command name callback :
  command upd = Some name →
  check_base (MessageHandler TEXT_and_not_COMMAND callback) upd = None.
Proof.
  intros H. simpl.
  unfold TEXT_and_not_COMMAND, filter_and, filter_not, filters_COMMAND.
  rewrite H, (bool_decide_eq_true_2 (is_Some (Some name))) by eauto.
  by rewrite andb_false_r.
Qed.

Lemma check_message_text callback :
  command upd = None → text upd ≠ "" →
  check_base (MessageHandler TEXT_and_not_COMMAND callback) upd = Some callback.
Proof.
  intros H Ht. simpl.
  unfold TEXT_and_not_COMMAND, filter_and, filter_not, filters_COMMAND, filters_TEXT.
  rewrite H, (bool_decide_eq_false_2 (is_Some None)) by (intros [? ?]; done).
  by rewrite bool_decide_eq_false_2.
Qed.

Lemma check_message_empty callback :
  text upd = "" →
  check_base (MessageHandler TEXT_and_not_COMMAND callback) upd = None.
Proof.
  intros Ht. simpl. unfold TEXT_and_not_COMMAND, filter_and, filters_TEXT.
  by rewrite bool_decide_eq_true_2.
Qed.

End Routing.

(** Unfolds the handler table on an update whose command is [name]. *)
Ltac route_command name :=
  unfold process_update, handlers, login_handler;
  cbn [process_update_in check_handler];
  unfold check_conversation, login_entry_points, login_fallbacks;
  match goal with
  | |- context [conversations ?st !! ?k] =>
    destruct (conversations st !! k)
  end;
  rewrite ?login_states_lookup;
  repeat case_bool_decide; cbn [first_accepting];
  rewrite ?(check_command_eq _ name) by done;
  rewrite ?(check_message_command _ name) by done;
  rewrite ?(check_command_ne _ _ name) by done;
  cbn [fmap option_fmap option_map];
  rewrite ?(check_command_eq _ name) by done;
  rewrite ?(check_message_command _ name) by done;
  rewrite ?(check_command_ne _ _ name) by done;
  try done.

Lemma route_login upd st :
  command upd = Some "login" →
  process_update upd st =
    match conversations st !! conversation_key upd with
    | None => Some (handle_conversation login_start upd st)
    | Some _ => None
    end.
Proof. intros Hc. route_command "login". Qed.

Lemma route_cancel upd st :
  command upd = Some "cancel" →
  process_update upd st =
    match conversations st !! conversation_key upd with
    | None => None
    | Some _ => Some (handle_conversation cancel_login upd st)
    end.
Proof. intros Hc. route_command "cancel". Qed.

Lemma route_logout upd st :
  command upd = Some "logout" → process_update upd st = Some (logout upd st).
Proof. intros Hc. route_command "logout". Qed.

Lemma route_info upd st :
  command upd = Some "info" → process_update upd st = Some (info_command upd st).
Proof. intros Hc. route_command "info". Qed.

Lemma route_stats upd st :
  command upd = Some "stats" → process_update upd st = Some (stats_command upd st).
Proof. intros Hc. route_command "stats". Qed.

Lemma route_users upd st :
  command upd = Some "users" → process_update upd st = Some (users_command upd st).
Proof. intros Hc. route_command "users". Qed.

Lemma route_data upd st :
  command upd = Some "data" → process_update upd st = Some (data_command upd st).
Proof. intros Hc. route_command "data". Qed.

(** Plain text goes to the step the conversation is waiting for, and to
    [unauthorized_command] when there is none. *)
Lemma route_text upd st :
  command upd = None → text upd ≠ "" →
  process_update upd st =
    match conversations st !! conversation_key upd with
    | None => Some (unauthorized_command upd st)
    | Some s =>
      if bool_decide (s = USERNAME)
      then Some (handle_conversation receive_username upd st)
      else if bool_decide (s = PASSWORD)
      then Some (handle_conversation receive_password upd st)
      else Some (unauthorized_command upd st)
    end.
Proof.
  intros Hc Ht.
  unfold process_update, handlers, login_handler.
  cbn [process_update_in check_handler].
  unfold check_conversation, login_entry_points, login_fallbacks.
  destruct (conversations st !! conversation_key upd) as [s|];
    rewrite ?login_states_lookup;
    repeat case_bool_decide; cbn [first_accepting];
    rewrite ?check_command_text, ?check_message_text by done;
    cbn [fmap option_fmap option_map];
    rewrite ?check_command_text, ?check_message_text by done;
    done.
Qed.

(** An empty text matches no handler. *)
Lemma route_empty_text upd st :
  command upd = None → text upd = "" → process_update upd st = None.
Proof.
  intros Hc Ht.
  unfold process_update, handlers, login_handler.
  cbn [process_update_in check_handler].
  unfold check_conversation, login_entry_points, login_fallbacks.
  destruct (conversations st !! conversation_key upd) as [s|];
    rewrite ?login_states_lookup;
    repeat case_bool_decide; cbn [first_accepting];
    rewrite ?check_command_text, ?check_message_empty by done;
    cbn [fmap option_fmap option_map];
    rewrite ?check_command_text, ?check_message_empty by done;
    done.
Qed.

(** ** What each handler computes *)

Ltac run_handler :=
  unfold bind, ret, raise, pass, try_except, reply_text, logger_info,
    logger_warning, user_in_authenticated_users, authenticated_users_add,
    authenticated_users_remove, user_data_get, user_data_setitem,
    message_delete, len_authenticated_users, iter_authenticated_users;
  cbn beta iota zeta.

(** Simplifies projections of the states the steps build. *)
Ltac state_simpl :=
  cbn [authenticated_users user_data conversations trace
       set_authenticated_users set_user_data set_conversations emit
       effective_user_id effective_chat_id message_id text command delete_raises
       command_update text_update conversation_key fst snd].

Lemma isAuthenticated_true uid st :
  isAuthenticated uid st = true ↔ uid ∈ authenticated_users st.
Proof. unfold isAuthenticated. by rewrite bool_decide_eq_true. Qed.

Lemma isAuthenticated_false uid st :
  isAuthenticated uid st = false ↔ uid ∉ authenticated_users st.
Proof. unfold isAuthenticated. by rewrite bool_decide_eq_false. Qed.

(** [verify] never raises and never touches the state. *)
Lemma verify_eq username password st :
  verify username password st =
    (Return match username with
            | Some u => bool_decide (VALID_CREDENTIALS !! u = Some password)
            | None => false
            end, st).
Proof.
  unfold verify, in_VALID_CREDENTIALS, VALID_CREDENTIALS_getitem.
  destruct username as [u|]; [|done].
  case_bool_decide as Hin.
  - destruct Hin as [secret Hs]. rewrite Hs. run_handler.
    do 2 f_equal. apply bool_decide_ext. naive_solver.
  - run_handler. rewrite bool_decide_eq_false_2; [done|].
    intros Hs. apply Hin. by eexists.
Qed.

Lemma login_start_authenticated upd st :
  isAuthenticated (effective_user_id upd) st = true →
  login_start upd st =
    (Return (Some END), emit (SendText (effective_chat_id upd) Msg.already_logged_in) st).
Proof.
  intros H. unfold login_start, isAuthenticated in *. run_handler. by rewrite !H.
Qed.

Lemma login_start_anonymous upd st :
  isAuthenticated (effective_user_id upd) st = false →
  login_start upd st =
    (Return (Some USERNAME), emit (SendText (effective_chat_id upd) Msg.login_required) st).
Proof.
  intros H. unfold login_start, isAuthenticated in *. run_handler. by rewrite !H.
Qed.

Lemma receive_username_eq upd st :
  receive_username upd st =
    (Return (Some PASSWORD),
     emit (SendText (effective_chat_id upd) (Msg.ask_password (Py.strip (text upd))))
       (set_user_data
          (<[effective_user_id upd :=
               <["username" := Py.strip (text upd)]>
                 (user_data_of (effective_user_id upd) st)]> (user_data st)) st)).
Proof. reflexivity. Qed.

Lemma receive_password_eq upd st :
  receive_password upd st =
    let user_id := effective_user_id upd in
    let username := stored_username user_id st in
    let st1 := after_delete upd st in
    (Return (Some END),
     if match username with
        | Some u => bool_decide (VALID_CREDENTIALS !! u = Some (Py.strip (text upd)))
        | None => false
        end
     then
       emit (LogInfo (Msg.log_logged_in user_id (format_username username)))
         (emit (SendText (effective_chat_id upd) Msg.login_successful)
            (set_authenticated_users ({[user_id]} ∪ authenticated_users st1) st1))
     else
       emit (LogWarning (Msg.log_failed_login user_id))
         (emit (SendText (effective_chat_id upd) Msg.invalid_credentials) st1)).
Proof.
  unfold receive_password, stored_username, after_delete.
  unfold bind at 1. unfold user_data_get at 1. cbn beta iota zeta.
  unfold bind at 1.
  assert (Hdel : try_except (message_delete upd) pass st =
            (Return (), if delete_raises upd then st
                        else emit (DeleteMessage (effective_chat_id upd) (message_id upd)) st)).
  { unfold try_except, message_delete, pass, ret. by destruct (delete_raises upd). }
  rewrite Hdel. cbn beta iota zeta.
  unfold bind at 1. rewrite verify_eq.
  destruct (match user_data_of (effective_user_id upd) st !! "username" with
            | Some u => bool_decide (VALID_CREDENTIALS !! u = Some (Py.strip (text upd)))
            | None => false
            end); reflexivity.
Qed.

Lemma cancel_login_eq upd st :
  cancel_login upd st =
    (Return (Some END), emit (SendText (effective_chat_id upd) Msg.login_cancelled) st).
Proof. reflexivity. Qed.

Lemma logout_authenticated upd st :
  isAuthenticated (effective_user_id upd) st = true →
  logout upd st =
    (Return None,
     emit (LogInfo (Msg.log_logged_out (effective_user_id upd)))
       (emit (SendText (effective_chat_id upd) Msg.logged_out)
          (set_authenticated_users
             (authenticated_users st ∖ {[effective_user_id upd]}) st))).
Proof.
  intros H. unfold logout, isAuthenticated in *. run_handler. by rewrite !H.
Qed.

Lemma logout_anonymous upd st :
  isAuthenticated (effective_user_id upd) st = false →
  logout upd st =
    (Return None, emit (SendText (effective_chat_id upd) Msg.not_logged_in) st).
Proof.
  intros H. unfold logout, isAuthenticated in *. run_handler. by rewrite !H.
Qed.

Lemma require_auth_anonymous func upd st :
  isAuthenticated (effective_user_id upd) st = false →
  require_auth func upd st =
    (Return None, emit (SendText (effective_chat_id upd) Msg.authentication_required) st).
Proof.
  intros H. unfold require_auth, isAuthenticated in *. run_handler. by rewrite !H.
Qed.

Lemma require_auth_authenticated func upd st :
  isAuthenticated (effective_user_id upd) st = true →
  require_auth func upd st = func upd st.
Proof.
  intros H. unfold require_auth, isAuthenticated in *. run_handler. by rewrite !H.
Qed.

Lemma unauthorized_command_authenticated upd st :
  isAuthenticated (effective_user_id upd) st = true →
  unauthorized_command upd st = (Return None, st).
Proof.
  intros H. unfold unauthorized_command, isAuthenticated in *. run_handler. by rewrite !H.
Qed.

Lemma unauthorized_command_anonymous upd st :
  isAuthenticated (effective_user_id upd) st = false →
  unauthorized_command upd st =
    (Return None, emit (SendText (effective_chat_id upd) Msg.please_login) st).
Proof.
  intros H. unfold unauthorized_command, isAuthenticated in *. run_handler. by rewrite !H.
Qed.

(** ** One update at a time: the login state machine *)

Lemma handle_conversation_end callback upd st st' :
  callback upd st = (Return (Some END), st') →
  handle_conversation callback upd st =
    (Return (Some END),
     set_conversations (delete (conversation_key upd) (conversations st')) st').
Proof. intros H. unfold handle_conversation, bind. by rewrite H. Qed.

Lemma handle_conversation_next callback upd st st' s :
  s ≠ END →
  callback upd st = (Return (Some s), st') →
  handle_conversation callback upd st =
    (Return (Some s),
     set_conversations (<[conversation_key upd := s]> (conversations st')) st').
Proof.
  intros Hs H. unfold handle_conversation, bind. rewrite H.
  unfold update_state. by rewrite bool_decide_eq_false_2.
Qed.

Lemma set_conversations_id st : set_conversations (conversations st) st = st.
Proof. by destruct st. Qed.

Section Steps.

Variables (upd : Update) (st : BotState).

Let key := conversation_key upd.
Let chat := effective_chat_id upd.
Let user := effective_user_id upd.

(** [/login] of a user who is logged in, with no conversation open:
    one reply and nothing else. *)
Lemma process_login_authenticated :
  command upd = Some "login" → Idle key st → isAuthenticated user st = true →
  process_update upd st =
    Some (Return (Some END), emit (SendText chat Msg.already_logged_in) st).
Proof.
  intros Hc Hk Ha. rewrite route_login by done. unfold Idle in Hk.
  fold key. rewrite Hk.
  erewrite handle_conversation_end by by apply login_start_authenticated.
  do 2 f_equal. cbn [conversations emit]. fold key.
  rewrite delete_id by done.
  by destruct st.
Qed.

(** [/login] of a user who is not logged in, with no conversation
    open: the prompt, and the conversation waits for the username. *)
Lemma process_login_anonymous :
  command upd = Some "login" → Idle key st → isAuthenticated user st = false →
  process_update upd st =
    Some (Return (Some USERNAME),
          set_conversations (<[key := USERNAME]> (conversations st))
            (emit (SendText chat Msg.login_required) st)).
Proof.
  intros Hc Hk Ha. rewrite route_login by done. unfold Idle in Hk.
  fold key. rewrite Hk.
  by rewrite (handle_conversation_next _ _ _ _ USERNAME ltac:(done)
                (login_start_anonymous _ _ Ha)).
Qed.

Lemma process_username :
  command upd = None → text upd ≠ "" → AwaitingUsername key st →
  process_update upd st =
    Some (Return (Some PASSWORD),
          set_conversations (<[key := PASSWORD]> (conversations st))
            (emit (SendText chat (Msg.ask_password (Py.strip (text upd))))
               (set_user_data
                  (<[user := <["username" := Py.strip (text upd)]>
                               (user_data_of user st)]> (user_data st)) st))).
Proof.
  intros Hc Ht Hk. rewrite route_text by done. unfold AwaitingUsername in Hk.
  fold key. rewrite Hk. rewrite bool_decide_eq_true_2 by done.
  by rewrite (handle_conversation_next _ _ _ _ PASSWORD ltac:(done)
                (receive_username_eq _ _)).
Qed.

Lemma process_password :
  command upd = None → text upd ≠ "" → AwaitingPassword key st →
  process_update upd st =
    Some (Return (Some END),
          let st' := snd (receive_password upd st) in
          set_conversations (delete key (conversations st)) st').
Proof.
  intros Hc Ht Hk. rewrite route_text by done. unfold AwaitingPassword in Hk.
  fold key. rewrite Hk.
  rewrite bool_decide_eq_false_2, bool_decide_eq_true_2 by done.
  erewrite handle_conversation_end by
    (rewrite (surjective_pairing (receive_password upd st));
     by rewrite receive_password_eq at 1).
  do 3 f_equal. rewrite receive_password_eq. cbn zeta. cbn [snd].
  unfold after_delete. by repeat case_match.
Qed.

Lemma process_cancel s :
  command upd = Some "cancel" → conversations st !! key = Some s →
  process_update upd st =
    Some (Return (Some END),
          set_conversations (delete key (conversations st))
            (emit (SendText chat Msg.login_cancelled) st)).
Proof.
  intros Hc Hk. rewrite route_cancel by done. fold key. rewrite Hk.
  by erewrite handle_conversation_end by apply cancel_login_eq.
Qed.

(** Plain text from a logged-in user outside a conversation reaches
    [unauthorized_command], which stays silent; an empty text reaches
    no handler. *)
Lemma step_stray_text :
  command upd = None → Idle key st → isAuthenticated user st = true →
  step st upd = st.
Proof.
  intros Hc Hk Ha. unfold step.
  destruct (decide (text upd = "")) as [Ht|Ht].
  - by rewrite route_empty_text.
  - rewrite route_text by done. unfold Idle in Hk. fold key. rewrite Hk.
    by rewrite unauthorized_command_authenticated.
Qed.

End Steps.

Lemma after_delete_authenticated_users upd st :
  authenticated_users (after_delete upd st) = authenticated_users st.
Proof. unfold after_delete. by destruct (delete_raises upd). Qed.

Lemma after_delete_user_data upd st :
  user_data (after_delete upd st) = user_data st.
Proof. unfold after_delete. by destruct (delete_raises upd). Qed.

Lemma after_delete_conversations upd st :
  conversations (after_delete upd st) = conversations st.
Proof. unfold after_delete. by destruct (delete_raises upd). Qed.

Lemma after_delete_trace upd st :
  trace (after_delete upd st) =
    trace st ++ (if delete_raises upd then []
                 else [DeleteMessage (effective_chat_id upd) (message_id upd)]).
Proof.
  unfold after_delete. destruct (delete_raises upd); [|done].
  by rewrite app_nil_r.
Qed.

(** ** The authorization guard *)

(** C1. A protected command ([/info], [/stats], [/users], [/data]) from a
    user who is not in [authenticated_users] answers "Authentication
    Required" and returns; the decorated body is not run, whatever it is:
    the outcome is the same for every [func], so no effect of [func] can
    show. The reply is the only effect: the set of authenticated users,
    the user data and the conversation table are as before. The same
    holds when the command arrives through the handler table. *)
Theorem require_auth_denies_anonymous (func : Callback) (upd : Update) (st : BotState) :
  isAuthenticated (effective_user_id upd) st = false →
  let denied :=
    (Return None,
     emit (SendText (effective_chat_id upd) Msg.authentication_required) st) in
  require_auth func upd st = denied
  ∧ info_command upd st = denied
  ∧ stats_command upd st = denied
  ∧ users_command upd st = denied
  ∧ data_command upd st = denied
  ∧ (command upd ∈ [Some "info"; Some "stats"; Some "users"; Some "data"] →
     process_update upd st = Some denied)
  ∧ authenticated_users denied.2 = authenticated_users st
  ∧ user_data denied.2 = user_data st
  ∧ conversations denied.2 = conversations st
  ∧ trace denied.2 =
      trace st ++ [SendText (effective_chat_id upd) Msg.authentication_required].
Proof.
  intros Ha denied.
  assert (Hany : ∀ f, require_auth f upd st = denied)
    by (intros f; by apply require_auth_anonymous).
  repeat split; try apply Hany.
  intros Hc. rewrite !elem_of_cons, elem_of_nil in Hc.
  destruct Hc as [Hc|[Hc|[Hc|[Hc|[]]]]].
  - rewrite route_info by done. f_equal. apply Hany.
  - rewrite route_stats by done. f_equal. apply Hany.
  - rewrite route_users by done. f_equal. apply Hany.
  - rewrite route_data by done. f_equal. apply Hany.
Qed.

Lemma require_auth_denies_anonymous_witness :
  isAuthenticated 7 initial_state = false
  ∧ info_command (command_update 7 7 1 "info") initial_state =
      (Return None, emit (SendText 7 Msg.authentication_required) initial_state).
Proof.
  split; [reflexivity|].
  destruct (require_auth_denies_anonymous
              info_body (command_update 7 7 1 "info") initial_state eq_refl)
    as (_ & H & _).
  exact H.
Defined.

(** ** The credential table *)

(** C4. The test of [receive_password] on a username [u] and a secret
    [s] never raises and leaves the state alone; it answers true exactly
    when [u] is a key of [VALID_CREDENTIALS] whose stored secret is the
    very string [s] (no trimming, no case folding here). For a username
    that is not a key the answer is the value false, whatever the
    secret. *)
Theorem verify_iff (u s : string) (st : BotState) :
  (∃ b : bool,
     verify (Some u) s st = (Return b, st)
     ∧ (b = true ↔ ∃ secret, VALID_CREDENTIALS !! u = Some secret ∧ secret = s))
  ∧ (VALID_CREDENTIALS !! u = None →
     ∀ s', verify (Some u) s' st = (Return false, st)).
Proof.
  split.
  - eexists. split; [apply verify_eq|].
    rewrite bool_decide_eq_true. split.
    + intros Hu. by exists s.
    + by intros (secret & Hu & <-).
  - intros Hu s'. rewrite verify_eq. by rewrite Hu.
Qed.

Lemma verify_iff_witness :
  VALID_CREDENTIALS !! "nouser" = None
  ∧ verify (Some "nouser") "anything" initial_state = (Return false, initial_state).
Proof.
  split; [reflexivity|].
  apply (proj2 (verify_iff "nouser" "admin123" initial_state)).
  reflexivity.
Defined.

(** ** The set of authenticated users *)

(** C5. After [authenticated_users.add(I)] the user is authenticated. A
    [/logout] then removes the user and answers "Logged out
    successfully"; a second [/logout] right after finds the user absent,
    answers "You're not logged in." and changes nothing else. Neither
    raises. *)
Theorem session_lifecycle (upd : Update) (st : BotState) :
  let I := effective_user_id upd in
  let chat := effective_chat_id upd in
  let st1 := (authenticated_users_add I st).2 in
  let r2 := logout upd st1 in
  let r3 := logout upd r2.2 in
  isAuthenticated I st1 = true
  ∧ r2 = (Return None,
          emit (LogInfo (Msg.log_logged_out I))
            (emit (SendText chat Msg.logged_out)
               (set_authenticated_users (authenticated_users st1 ∖ {[I]}) st1)))
  ∧ isAuthenticated I r2.2 = false
  ∧ r3 = (Return None, emit (SendText chat Msg.not_logged_in) r2.2)
  ∧ isAuthenticated I r3.2 = false.
Proof.
  intros I chat st1 r2 r3.
  assert (H1 : isAuthenticated I st1 = true).
  { apply isAuthenticated_true. subst st1. cbn.
    apply elem_of_union_l. by apply elem_of_singleton. }
  assert (H2 : r2 = (Return None,
                     emit (LogInfo (Msg.log_logged_out I))
                       (emit (SendText chat Msg.logged_out)
                          (set_authenticated_users (authenticated_users st1 ∖ {[I]}) st1))))
    by (by apply logout_authenticated).
  assert (H3 : isAuthenticated I r2.2 = false).
  { apply isAuthenticated_false. rewrite H2. cbn.
    rewrite elem_of_difference, elem_of_singleton. tauto. }
  assert (H4 : r3 = (Return None, emit (SendText chat Msg.not_logged_in) r2.2))
    by (by apply logout_anonymous).
  repeat split; try done.
  by rewrite H4.
Qed.

(** C6. Adding a user twice in a row gives the same state as adding the
    user once, and [len(authenticated_users)] is the same after the
    second call as after the first. *)
Theorem add_idempotent (I : Z) (st : BotState) :
  let st1 := (authenticated_users_add I st).2 in
  let st2 := (authenticated_users_add I st1).2 in
  st2 = st1
  ∧ authenticated_users st2 = authenticated_users st1
  ∧ (len_authenticated_users st2).1 = (len_authenticated_users st1).1.
Proof.
  intros st1 st2.
  assert (H : st2 = st1).
  { subst st1 st2. unfold authenticated_users_add, set_authenticated_users.
    cbn. f_equal. by rewrite (assoc_L (∪)), (idemp_L (∪)). }
  by rewrite H.
Qed.

(** ** The login conversation *)

(** C7. [login_start] for a user who is logged in answers "You're
    already logged in!" and returns [END]: the conversation handler then
    holds no state for the user, and [user_data] is as before; when
    [/login] arrives with no conversation open, the reply is the only
    change to the state. For a user who is not logged in [login_start]
    asks for the username and returns [USERNAME], which the conversation
    handler records as the state to wait in. *)
Theorem login_start_precondition (upd : Update) (st : BotState) :
  let I := effective_user_id upd in
  let chat := effective_chat_id upd in
  let key := conversation_key upd in
  (isAuthenticated I st = true →
     login_start upd st =
       (Return (Some END), emit (SendText chat Msg.already_logged_in) st)
     ∧ Idle key (handle_conversation login_start upd st).2
     ∧ user_data (handle_conversation login_start upd st).2 = user_data st
     ∧ (command upd = Some "login" → Idle key st →
        process_update upd st =
          Some (Return (Some END), emit (SendText chat Msg.already_logged_in) st)))
  ∧ (isAuthenticated I st = false →
     login_start upd st =
       (Return (Some USERNAME), emit (SendText chat Msg.login_required) st)
     ∧ AwaitingUsername key (handle_conversation login_start upd st).2
     ∧ (command upd = Some "login" → Idle key st →
        process_update upd st =
          Some (Return (Some USERNAME),
                set_conversations (<[key := USERNAME]> (conversations st))
                  (emit (SendText chat Msg.login_required) st)))).
Proof.
  intros I chat key. split; intros Ha.
  - rewrite (handle_conversation_end _ _ _ _ (login_start_authenticated _ _ Ha)).
    repeat split.
    + by apply login_start_authenticated.
    + unfold Idle. state_simpl. apply lookup_delete_eq.
    + intros Hc Hk. by apply process_login_authenticated.
  - rewrite (handle_conversation_next _ _ _ _ USERNAME ltac:(done)
               (login_start_anonymous _ _ Ha)).
    repeat split.
    + by apply login_start_anonymous.
    + unfold AwaitingUsername. state_simpl. apply lookup_insert_eq.
    + intros Hc Hk. by apply process_login_anonymous.
Qed.

Lemma login_start_precondition_witness :
  isAuthenticated 7 initial_state = false
  ∧ command (command_update 7 7 1 "login") = Some "login"
  ∧ Idle (7, 7) initial_state
  ∧ process_update (command_update 7 7 1 "login") initial_state =
      Some (Return (Some USERNAME),
            set_conversations (<[(7, 7) := USERNAME]> ∅)
              (emit (SendText 7 Msg.login_required) initial_state)).
Proof.
  split; [reflexivity|]. split; [reflexivity|]. split; [reflexivity|].
  destruct (login_start_precondition (command_update 7 7 1 "login") initial_state)
    as [_ H].
  destruct (H eq_refl) as (_ & _ & H').
  exact (H' eq_refl eq_refl).
Defined.

(** C9. [receive_password] for a user whose [user_data] holds no
    ['username']: [dict.get] gives [None], the membership test fails, the
    indexing is not evaluated and nothing is raised. The handler answers
    "Invalid credentials", logs the failed attempt and returns [END]; the
    set of authenticated users is as before. *)
Theorem receive_password_without_username (upd : Update) (st : BotState) :
  stored_username (effective_user_id upd) st = None →
  in_VALID_CREDENTIALS None = false
  ∧ verify None (Py.strip (text upd)) (after_delete upd st) =
      (Return false, after_delete upd st)
  ∧ receive_password upd st =
    (Return (Some END),
     emit (LogWarning (Msg.log_failed_login (effective_user_id upd)))
       (emit (SendText (effective_chat_id upd) Msg.invalid_credentials)
          (after_delete upd st)))
  ∧ authenticated_users (receive_password upd st).2 = authenticated_users st
  ∧ ∀ J, isAuthenticated J (receive_password upd st).2 = isAuthenticated J st.
Proof.
  intros Hu.
  assert (H : receive_password upd st =
    (Return (Some END),
     emit (LogWarning (Msg.log_failed_login (effective_user_id upd)))
       (emit (SendText (effective_chat_id upd) Msg.invalid_credentials)
          (after_delete upd st)))).
  { rewrite receive_password_eq. cbn zeta. by rewrite Hu. }
  assert (Hauth : authenticated_users (receive_password upd st).2 = authenticated_users st).
  { rewrite H. cbn [snd emit authenticated_users].
    apply after_delete_authenticated_users. }
  split; [done|]. split; [apply verify_eq|]. split; [done|]. split; [done|].
  intros J. unfold isAuthenticated. by rewrite Hauth.
Qed.

Lemma receive_password_without_username_witness :
  stored_username 7 initial_state = None
  ∧ receive_password (text_update 7 7 1 true "admin123") initial_state =
      (Return (Some END),
       emit (LogWarning (Msg.log_failed_login 7))
         (emit (SendText 7 Msg.invalid_credentials) initial_state)).
Proof.
  split; [reflexivity|].
  destruct (receive_password_without_username
              (text_update 7 7 1 true "admin123") initial_state eq_refl)
    as (_ & _ & H & _).
  exact H.
Defined.

(** The steps of a login, as equations on [step]. *)
Section LoginSteps.

Variables (upd : Update) (st : BotState).

Let key := conversation_key upd.
Let chat := effective_chat_id upd.
Let user := effective_user_id upd.

Lemma step_login :
  command upd = Some "login" → Idle key st → isAuthenticated user st = false →
  step st upd =
    set_conversations (<[key := USERNAME]> (conversations st))
      (emit (SendText chat Msg.login_required) st).
Proof. intros. unfold step. by rewrite process_login_anonymous. Qed.

Lemma step_username :
  command upd = None → text upd ≠ "" → AwaitingUsername key st →
  step st upd =
    set_conversations (<[key := PASSWORD]> (conversations st))
      (emit (SendText chat (Msg.ask_password (Py.strip (text upd))))
         (set_user_data
            (<[user := <["username" := Py.strip (text upd)]>
                         (user_data_of user st)]> (user_data st)) st)).
Proof. intros. unfold step. by rewrite process_username. Qed.

Lemma step_password_accepted name :
  command upd = None → text upd ≠ "" → AwaitingPassword key st →
  stored_username user st = Some name →
  VALID_CREDENTIALS !! name = Some (Py.strip (text upd)) →
  step st upd =
    set_conversations (delete key (conversations st))
      (emit (LogInfo (Msg.log_logged_in user name))
         (emit (SendText chat Msg.login_successful)
            (set_authenticated_users ({[user]} ∪ authenticated_users st)
               (after_delete upd st)))).
Proof.
  intros Hc Ht Hk Hn Hv. unfold step. rewrite process_password by done.
  cbn zeta. rewrite receive_password_eq. cbn zeta. fold user.
  rewrite Hn, bool_decide_eq_true_2 by done.
  cbn [snd format_username default]. fold key chat.
  by rewrite after_delete_authenticated_users.
Qed.

Lemma step_password_rejected :
  command upd = None → text upd ≠ "" → AwaitingPassword key st →
  (∀ name, stored_username user st = Some name →
           VALID_CREDENTIALS !! name ≠ Some (Py.strip (text upd))) →
  step st upd =
    set_conversations (delete key (conversations st))
      (emit (LogWarning (Msg.log_failed_login user))
         (emit (SendText chat Msg.invalid_credentials)
            (after_delete upd st))).
Proof.
  intros Hc Ht Hk Hv. unfold step. rewrite process_password by done.
  cbn zeta. rewrite receive_password_eq. cbn zeta. fold user.
  destruct (stored_username user st) as [name|] eqn:Hn; [|done].
  by rewrite bool_decide_eq_false_2 by by apply Hv.
Qed.

Lemma step_cancel s :
  command upd = Some "cancel" → conversations st !! key = Some s →
  step st upd =
    set_conversations (delete key (conversations st))
      (emit (SendText chat Msg.login_cancelled) st).
Proof. intros. unfold step. by erewrite process_cancel. Qed.

End LoginSteps.

Lemma strip_admin : Py.strip "admin" = "admin".
Proof. reflexivity. Qed.

Lemma strip_admin123 : Py.strip "admin123" = "admin123".
Proof. reflexivity. Qed.

Lemma strip_wrong : Py.strip "wrong" = "wrong".
Proof. reflexivity. Qed.

(** The state after [/login] and a username, from an idle conversation
    of a user who is not logged in. *)
Lemma run_login_username (chat user m1 m2 : Z) (r2 : bool) (name : string) (st : BotState) :
  isAuthenticated user st = false → Idle (chat, user) st → name ≠ "" →
  run [command_update chat user m1 "login"; text_update chat user m2 r2 name] st =
    set_conversations (<[(chat, user) := PASSWORD]> (conversations st))
      (emit (SendText chat (Msg.ask_password (Py.strip name)))
         (set_user_data
            (<[user := <["username" := Py.strip name]> (user_data_of user st)]>
               (user_data st))
            (emit (SendText chat Msg.login_required) st))).
Proof.
  intros Ha Hk Hn. unfold run. cbn [foldl].
  rewrite (step_login _ st) by done.
  rewrite step_username; state_simpl; [|done|done|].
  - unfold user_data_of. state_simpl. by rewrite insert_insert_eq.
  - unfold AwaitingUsername. state_simpl. apply lookup_insert_eq.
Qed.

(** The state after a whole login attempt: [/login], a username and a
    password, from an idle conversation of a user who is not logged in.
    The conversation table is back to what it was. *)
Lemma run_login_attempt
    (chat user m1 m2 m3 : Z) (r2 r3 : bool) (name secret : string) (st : BotState) :
  isAuthenticated user st = false → Idle (chat, user) st →
  name ≠ "" → secret ≠ "" →
  run [command_update chat user m1 "login";
       text_update chat user m2 r2 name;
       text_update chat user m3 r3 secret] st =
    let st2 :=
      emit (SendText chat (Msg.ask_password (Py.strip name)))
        (set_user_data
           (<[user := <["username" := Py.strip name]> (user_data_of user st)]>
              (user_data st))
           (emit (SendText chat Msg.login_required) st)) in
    let st2' := after_delete (text_update chat user m3 r3 secret) st2 in
    if bool_decide (VALID_CREDENTIALS !! Py.strip name = Some (Py.strip secret))
    then
      emit (LogInfo (Msg.log_logged_in user (Py.strip name)))
        (emit (SendText chat Msg.login_successful)
           (set_authenticated_users ({[user]} ∪ authenticated_users st) st2'))
    else
      emit (LogWarning (Msg.log_failed_login user))
        (emit (SendText chat Msg.invalid_credentials) st2').
Proof.
  intros Ha Hk Hn Hs.
  change (run [command_update chat user m1 "login";
               text_update chat user m2 r2 name;
               text_update chat user m3 r3 secret] st)
    with (step (run [command_update chat user m1 "login";
                     text_update chat user m2 r2 name] st)
               (text_update chat user m3 r3 secret)).
  rewrite run_login_username by done.
  remember (set_conversations _ _) as st2 eqn:E2.
  assert (Hk2 : AwaitingPassword (chat, user) st2)
    by (unfold AwaitingPassword; rewrite E2; state_simpl; apply lookup_insert_eq).
  assert (Hu2 : stored_username user st2 = Some (Py.strip name)).
  { unfold stored_username, user_data_of. rewrite E2. state_simpl.
    rewrite lookup_insert_eq. cbn [default]. apply lookup_insert_eq. }
  assert (Hc2 : delete (chat, user) (conversations st2) = conversations st).
  { rewrite E2. state_simpl. rewrite delete_insert_eq. by apply delete_id. }
  assert (Ha2 : authenticated_users st2 = authenticated_users st)
    by by rewrite E2.
  cbn zeta. case_bool_decide as Hv.
  - rewrite (step_password_accepted _ st2 (Py.strip name)) by done.
    change (conversation_key (text_update chat user m3 r3 secret)) with (chat, user).
    state_simpl. rewrite Hc2, Ha2. rewrite E2. unfold after_delete. state_simpl.
    by destruct r3, st.
  - rewrite (step_password_rejected _ st2); [|done|done|done|].
    + change (conversation_key (text_update chat user m3 r3 secret)) with (chat, user).
      state_simpl. rewrite Hc2. rewrite E2. unfold after_delete. state_simpl.
      by destruct r3, st.
    + intros name'. state_simpl. rewrite Hu2. by intros [= <-].
Qed.

Lemma run_app (us vs : list Update) (st : BotState) :
  run (us ++ vs) st = run vs (run us st).
Proof. unfold run. apply foldl_app. Qed.

(** The four components of the state after a whole login attempt. *)
Lemma login_attempt_outcome
    (chat user m1 m2 m3 : Z) (r2 r3 : bool) (name secret : string) (st : BotState) :
  isAuthenticated user st = false → Idle (chat, user) st →
  name ≠ "" → secret ≠ "" →
  let st' := run [command_update chat user m1 "login";
                  text_update chat user m2 r2 name;
                  text_update chat user m3 r3 secret] st in
  let ok := bool_decide (VALID_CREDENTIALS !! Py.strip name = Some (Py.strip secret)) in
  authenticated_users st' =
    (if ok then {[user]} ∪ authenticated_users st else authenticated_users st)
  ∧ conversations st' = conversations st
  ∧ user_data st' =
      <[user := <["username" := Py.strip name]> (user_data_of user st)]> (user_data st)
  ∧ trace st' =
      trace st
      ++ [SendText chat Msg.login_required;
          SendText chat (Msg.ask_password (Py.strip name))]
      ++ (if r3 then [] else [DeleteMessage chat m3])
      ++ (if ok
          then [SendText chat Msg.login_successful;
                LogInfo (Msg.log_logged_in user (Py.strip name))]
          else [SendText chat Msg.invalid_credentials;
                LogWarning (Msg.log_failed_login user)]).
Proof.
  intros Ha Hk Hn Hs st' ok. subst st'.
  rewrite run_login_attempt by done. cbn zeta. fold ok.
  destruct ok; state_simpl;
    rewrite ?after_delete_authenticated_users, ?after_delete_conversations,
      ?after_delete_user_data, ?after_delete_trace;
    state_simpl; repeat split; try done;
    destruct r3; by rewrite <- ?app_assoc.
Qed.

(** The state after a login attempt that is cancelled at the password
    prompt. *)
Lemma run_login_cancelled
    (chat user m1 m2 m3 : Z) (r2 : bool) (name : string) (st : BotState) :
  isAuthenticated user st = false → Idle (chat, user) st → name ≠ "" →
  run [command_update chat user m1 "login";
       text_update chat user m2 r2 name;
       command_update chat user m3 "cancel"] st =
    emit (SendText chat Msg.login_cancelled)
      (emit (SendText chat (Msg.ask_password (Py.strip name)))
         (set_user_data
            (<[user := <["username" := Py.strip name]> (user_data_of user st)]>
               (user_data st))
            (emit (SendText chat Msg.login_required) st))).
Proof.
  intros Ha Hk Hn.
  change (run [command_update chat user m1 "login";
               text_update chat user m2 r2 name;
               command_update chat user m3 "cancel"] st)
    with (step (run [command_update chat user m1 "login";
                     text_update chat user m2 r2 name] st)
               (command_update chat user m3 "cancel")).
  rewrite run_login_username by done.
  erewrite step_cancel;
    [|done|change (conversation_key (command_update chat user m3 "cancel"))
             with (chat, user); state_simpl; apply lookup_insert_eq].
  change (conversation_key (command_update chat user m3 "cancel")) with (chat, user).
  state_simpl. rewrite delete_insert_eq, delete_id by done.
  by destruct st.
Qed.

(** C2. From an idle conversation of a user who is not logged in,
    [/login], then the text [admin], then the text [admin123] leave the
    user authenticated and the conversation closed. After that, plain
    text from the same user in the same chat, sent without a new
    [/login], is ignored: the state stays exactly as it is. *)
Theorem login_round_trip (chat I m1 m2 m3 : Z) (r2 r3 : bool) (st : BotState) :
  isAuthenticated I st = false → Idle (chat, I) st →
  let st' := run [command_update chat I m1 "login";
                  text_update chat I m2 r2 "admin";
                  text_update chat I m3 r3 "admin123"] st in
  isAuthenticated I st' = true
  ∧ Idle (chat, I) st'
  ∧ ∀ upd, command upd = None → conversation_key upd = (chat, I) →
           step st' upd = st'.
Proof.
  intros Ha Hk st'.
  destruct (login_attempt_outcome chat I m1 m2 m3 r2 r3 "admin" "admin123" st)
    as (Hauth & Hconv & _); [done..|].
  fold st' in Hauth, Hconv.
  rewrite strip_admin, strip_admin123 in Hauth.
  rewrite bool_decide_eq_true_2 in Hauth by reflexivity.
  assert (Ha' : isAuthenticated I st' = true).
  { apply isAuthenticated_true. rewrite Hauth.
    apply elem_of_union_l. by apply elem_of_singleton. }
  assert (Hk' : Idle (chat, I) st') by (unfold Idle; by rewrite Hconv).
  split; [done|]. split; [done|].
  intros upd Hc Hkey. apply step_stray_text; [done| |].
  - by rewrite Hkey.
  - by replace (effective_user_id upd) with I by by inversion Hkey.
Qed.

Lemma login_round_trip_witness :
  isAuthenticated 7 initial_state = false
  ∧ Idle (7, 7) initial_state
  ∧ isAuthenticated 7
      (run [command_update 7 7 1 "login";
            text_update 7 7 2 false "admin";
            text_update 7 7 3 false "admin123"] initial_state) = true.
Proof.
  split; [reflexivity|]. split; [reflexivity|].
  destruct (login_round_trip 7 7 1 2 3 false false initial_state eq_refl eq_refl)
    as [H _].
  exact H.
Defined.

(** C3. From an idle conversation of a user who is not logged in,
    [/login], then [admin], then [wrong] leave the user not
    authenticated and the conversation closed. The last step emits one
    reply, "Invalid credentials! Please try again with /login" (besides
    the deletion of the password message and a log line naming only the
    user id); that reply contains neither "username" nor "password", in
    any letter case. The same reply and log line, and nothing else, follow
    every rejected pair, be it the username or the secret that is wrong. *)
Theorem invalid_credentials_round_trip
    (chat I m1 m2 m3 : Z) (r2 r3 : bool) (st : BotState) :
  isAuthenticated I st = false → Idle (chat, I) st →
  let login := command_update chat I m1 "login" in
  let deletion := if r3 then [] else [DeleteMessage chat m3] in
  let rejection :=
    [SendText chat Msg.invalid_credentials; LogWarning (Msg.log_failed_login I)] in
  let st2 := run [login; text_update chat I m2 r2 "admin"] st in
  let st3 := run [login; text_update chat I m2 r2 "admin";
                  text_update chat I m3 r3 "wrong"] st in
  isAuthenticated I st3 = false
  ∧ Idle (chat, I) st3
  ∧ trace st3 = trace st2 ++ deletion ++ rejection
  ∧ sent (deletion ++ rejection) = [Msg.invalid_credentials]
  ∧ Py.str_in "username" (Py.lower Msg.invalid_credentials) = false
  ∧ Py.str_in "password" (Py.lower Msg.invalid_credentials) = false
  ∧ ∀ name secret,
      name ≠ "" → secret ≠ "" →
      VALID_CREDENTIALS !! Py.strip name ≠ Some (Py.strip secret) →
      trace (run [login; text_update chat I m2 r2 name;
                  text_update chat I m3 r3 secret] st) =
        trace (run [login; text_update chat I m2 r2 name] st)
        ++ deletion ++ rejection.
Proof.
  intros Ha Hk login deletion rejection st2 st3.
  assert (Hany : ∀ name secret,
    name ≠ "" → secret ≠ "" →
    VALID_CREDENTIALS !! Py.strip name ≠ Some (Py.strip secret) →
    trace (run [login; text_update chat I m2 r2 name;
                text_update chat I m3 r3 secret] st) =
      trace (run [login; text_update chat I m2 r2 name] st)
      ++ deletion ++ rejection).
  { intros name secret Hn Hs Hv.
    destruct (login_attempt_outcome chat I m1 m2 m3 r2 r3 name secret st)
      as (_ & _ & _ & Htr); [done..|].
    rewrite bool_decide_eq_false_2 in Htr by done.
    subst login. rewrite Htr, run_login_username by done.
    state_simpl. by rewrite <- !app_assoc. }
  destruct (login_attempt_outcome chat I m1 m2 m3 r2 r3 "admin" "wrong" st)
    as (Hauth & Hconv & _); [done..|].
  fold login st3 in Hauth, Hconv.
  rewrite strip_admin, strip_wrong in Hauth.
  rewrite bool_decide_eq_false_2 in Hauth by (by vm_compute).
  repeat split.
  - unfold isAuthenticated in *. by rewrite Hauth.
  - unfold Idle. by rewrite Hconv.
  - by apply Hany.
  - subst deletion rejection. by destruct r3.
  - done.
Qed.

Lemma invalid_credentials_round_trip_witness :
  isAuthenticated 7 initial_state = false
  ∧ Idle (7, 7) initial_state
  ∧ isAuthenticated 7
      (run [command_update 7 7 1 "login";
            text_update 7 7 2 false "admin";
            text_update 7 7 3 false "wrong"] initial_state) = false.
Proof.
  split; [reflexivity|]. split; [reflexivity|].
  destruct (invalid_credentials_round_trip
              7 7 1 2 3 false false initial_state eq_refl eq_refl)
    as [H _].
  exact H.
Defined.

(** C8, as stated, fails: after each of the three terminal outcomes
    (success, invalid credentials, cancellation) the candidate username
    is still in the user's [user_data]. *)
Lemma attempt_data_survives :
  ¬ attempt_destroyed 7 7
      (run [command_update 7 7 1 "login"; text_update 7 7 2 false "admin";
            text_update 7 7 3 false "admin123"] initial_state)
  ∧ ¬ attempt_destroyed 7 7
      (run [command_update 7 7 1 "login"; text_update 7 7 2 false "admin";
            text_update 7 7 3 false "wrong"] initial_state)
  ∧ ¬ attempt_destroyed 7 7
      (run [command_update 7 7 1 "login"; text_update 7 7 2 false "admin";
            command_update 7 7 3 "cancel"] initial_state)
  ∧ stored_username 7
      (run [command_update 7 7 1 "login"; text_update 7 7 2 false "admin";
            text_update 7 7 3 false "wrong"] initial_state) = Some "admin".
Proof.
  repeat split; try (intros [_ H]; vm_compute in H; discriminate H).
Qed.

(** C8, amended. Every terminal outcome closes the conversation of the
    user, so no pending step is left: a password, accepted or rejected,
    and a [/cancel] at either prompt. None of them touches [user_data]:
    the candidate username stays stored, and after a whole attempt, ended
    by a password or by [/cancel], it is the trimmed text of the username
    step. *)
Theorem terminal_outcome_closes_conversation (chat I : Z) (st : BotState) :
  (∀ upd,
     conversation_key upd = (chat, I) →
     command upd = None → text upd ≠ "" → AwaitingPassword (chat, I) st →
     Idle (chat, I) (step st upd)
     ∧ user_data (step st upd) = user_data st
     ∧ stored_username I (step st upd) = stored_username I st)
  ∧ (∀ upd,
       conversation_key upd = (chat, I) →
       command upd = Some "cancel" → ¬ Idle (chat, I) st →
       Idle (chat, I) (step st upd)
       ∧ user_data (step st upd) = user_data st
       ∧ stored_username I (step st upd) = stored_username I st)
  ∧ (∀ m1 m2 m3 r2 r3 name secret,
       isAuthenticated I st = false → Idle (chat, I) st →
       name ≠ "" → secret ≠ "" →
       stored_username I
         (run [command_update chat I m1 "login"; text_update chat I m2 r2 name;
               text_update chat I m3 r3 secret] st) = Some (Py.strip name)
       ∧ stored_username I
           (run [command_update chat I m1 "login"; text_update chat I m2 r2 name;
                 command_update chat I m3 "cancel"] st) = Some (Py.strip name)).
Proof.
  assert (Hstored : ∀ st', user_data st' = user_data st →
                           stored_username I st' = stored_username I st).
  { intros st' H. unfold stored_username, user_data_of. by rewrite H. }
  split; [|split].
  - intros upd Hkey Hc Ht Hk. rewrite <- Hkey in Hk |- *.
    assert (Hstep : step st upd =
              set_conversations (delete (conversation_key upd) (conversations st))
                (receive_password upd st).2)
      by (unfold step; by rewrite process_password).
    assert (Hud : user_data (step st upd) = user_data st).
    { rewrite Hstep, receive_password_eq. cbn zeta.
      cbn [snd set_conversations user_data].
      case_match; cbn [emit set_authenticated_users user_data];
        apply after_delete_user_data. }
    split; [|split; [done|by apply Hstored]].
    unfold Idle. rewrite Hstep. cbn [set_conversations conversations].
    apply lookup_delete_eq.
  - intros upd Hkey Hc Hk. rewrite <- Hkey in Hk |- *. unfold Idle in Hk.
    destruct (conversations st !! conversation_key upd) as [s|] eqn:Hs; [|done].
    rewrite (step_cancel upd st s) by done.
    split; [|split; [done|by apply Hstored]].
    unfold Idle. cbn [set_conversations conversations]. apply lookup_delete_eq.
  - intros m1 m2 m3 r2 r3 name secret Ha Hk Hn Hs.
    assert (Hins : ∀ d : gmap Z (gmap string string),
              default ∅ (<[I := <["username" := Py.strip name]> (user_data_of I st)]> d !! I)
                !! "username" = Some (Py.strip name)).
    { intros d. rewrite lookup_insert_eq. cbn [default]. apply lookup_insert_eq. }
    split.
    + destruct (login_attempt_outcome chat I m1 m2 m3 r2 r3 name secret st)
        as (_ & _ & Hud & _); [done..|].
      unfold stored_username, user_data_of at 1. rewrite Hud. apply Hins.
    + rewrite run_login_cancelled by done.
      unfold stored_username, user_data_of at 1. state_simpl. apply Hins.
Qed.

Lemma terminal_outcome_closes_conversation_witness :
  conversation_key (command_update 7 7 3 "cancel") = (7, 7)
  ∧ command (command_update 7 7 3 "cancel") = Some "cancel"
  ∧ ¬ Idle (7, 7)
        (run [command_update 7 7 1 "login"; text_update 7 7 2 false "admin"]
             initial_state)
  ∧ Idle (7, 7)
      (step (run [command_update 7 7 1 "login"; text_update 7 7 2 false "admin"]
                 initial_state)
            (command_update 7 7 3 "cancel")).
Proof.
  assert (Hk : ¬ Idle (7, 7)
                 (run [command_update 7 7 1 "login"; text_update 7 7 2 false "admin"]
                      initial_state))
    by (intros H; vm_compute in H; discriminate H).
  split; [reflexivity|]. split; [reflexivity|]. split; [exact Hk|].
  destruct (terminal_outcome_closes_conversation 7 7
              (run [command_update 7 7 1 "login"; text_update 7 7 2 false "admin"]
                   initial_state))
    as (_ & H & _).
  destruct (H (command_update 7 7 3 "cancel") eq_refl eq_refl Hk) as [H' _].
  exact H'.
Defined.

(** ** Sessions are keyed by the user id *)

Lemma isAuthenticated_ext J st st' :
  authenticated_users st' = authenticated_users st →
  isAuthenticated J st' = isAuthenticated J st.
Proof. unfold isAuthenticated. by intros ->. Qed.

Lemma isAuthenticated_add_ne I J st st' :
  J ≠ I → authenticated_users st' = {[I]} ∪ authenticated_users st →
  isAuthenticated J st' = isAuthenticated J st.
Proof.
  intros Hne H. unfold isAuthenticated. rewrite H. apply bool_decide_ext.
  rewrite elem_of_union, elem_of_singleton. tauto.
Qed.

Lemma isAuthenticated_remove_ne I J st st' :
  J ≠ I → authenticated_users st' = authenticated_users st ∖ {[I]} →
  isAuthenticated J st' = isAuthenticated J st.
Proof.
  intros Hne H. unfold isAuthenticated. rewrite H. apply bool_decide_ext.
  rewrite elem_of_difference, elem_of_singleton. tauto.
Qed.

(** A handler that only replies. *)
Ltac reply_only h :=
  intros upd st J _; apply isAuthenticated_ext;
  unfold h; run_handler; by repeat case_match.

Lemma start_touches_only_caller : touches_only_caller start.
Proof. reply_only start. Qed.

Lemma login_start_touches_only_caller : touches_only_caller login_start.
Proof. reply_only login_start. Qed.

Lemma receive_username_touches_only_caller : touches_only_caller receive_username.
Proof. reply_only receive_username. Qed.

Lemma cancel_login_touches_only_caller : touches_only_caller cancel_login.
Proof. reply_only cancel_login. Qed.

Lemma help_command_touches_only_caller : touches_only_caller help_command.
Proof. reply_only help_command. Qed.

Lemma unauthorized_command_touches_only_caller :
  touches_only_caller unauthorized_command.
Proof. reply_only unauthorized_command. Qed.

Lemma receive_password_authenticated_users upd st :
  authenticated_users (receive_password upd st).2 = authenticated_users st
  ∨ authenticated_users (receive_password upd st).2 =
      {[effective_user_id upd]} ∪ authenticated_users st.
Proof.
  rewrite receive_password_eq. cbn zeta. state_simpl.
  case_match; state_simpl; rewrite after_delete_authenticated_users; auto.
Qed.

Lemma receive_password_touches_only_caller : touches_only_caller receive_password.
Proof.
  intros upd st J Hne.
  destruct (receive_password_authenticated_users upd st) as [H|H].
  - by apply isAuthenticated_ext.
  - by eapply isAuthenticated_add_ne.
Qed.

Lemma logout_authenticated_users upd st :
  authenticated_users (logout upd st).2 =
    authenticated_users st ∖ {[effective_user_id upd]}.
Proof.
  destruct (isAuthenticated (effective_user_id upd) st) eqn:Ha.
  - by rewrite logout_authenticated.
  - rewrite logout_anonymous by done. state_simpl.
    apply isAuthenticated_false in Ha.
    apply set_eq. intros J. rewrite elem_of_difference, elem_of_singleton.
    split; [|tauto]. intros HJ. split; [done|]. by intros ->.
Qed.

Lemma logout_touches_only_caller : touches_only_caller logout.
Proof.
  intros upd st J Hne. eapply isAuthenticated_remove_ne; [done|].
  apply logout_authenticated_users.
Qed.

Lemma require_auth_touches_only_caller func :
  touches_only_caller func → touches_only_caller (require_auth func).
Proof.
  intros Hf upd st J Hne.
  destruct (isAuthenticated (effective_user_id upd) st) eqn:Ha.
  - rewrite require_auth_authenticated by done. by apply Hf.
  - by rewrite require_auth_anonymous.
Qed.

Lemma info_command_touches_only_caller : touches_only_caller info_command.
Proof. apply require_auth_touches_only_caller. reply_only info_body. Qed.

Lemma stats_command_touches_only_caller : touches_only_caller stats_command.
Proof. apply require_auth_touches_only_caller. reply_only stats_body. Qed.

Lemma users_command_touches_only_caller : touches_only_caller users_command.
Proof. apply require_auth_touches_only_caller. reply_only users_body. Qed.

Lemma data_command_touches_only_caller : touches_only_caller data_command.
Proof. apply require_auth_touches_only_caller. reply_only data_body. Qed.

Lemma handle_conversation_authenticated_users callback upd st :
  authenticated_users (handle_conversation callback upd st).2 =
    authenticated_users (callback upd st).2.
Proof.
  unfold handle_conversation, bind, update_state, ret.
  destruct (callback upd st) as [[r|e] st']; [|done].
  destruct r as [s|]; [|done]. by case_bool_decide.
Qed.

Lemma handle_conversation_touches_only_caller callback :
  touches_only_caller callback →
  touches_only_caller (handle_conversation callback).
Proof.
  intros Hc upd st J Hne. rewrite <- (Hc upd st J Hne).
  apply isAuthenticated_ext, handle_conversation_authenticated_users.
Qed.

Create HintDb frame.
#[local] Hint Resolve start_touches_only_caller login_start_touches_only_caller
  receive_username_touches_only_caller receive_password_touches_only_caller
  cancel_login_touches_only_caller logout_touches_only_caller
  help_command_touches_only_caller info_command_touches_only_caller
  stats_command_touches_only_caller users_command_touches_only_caller
  data_command_touches_only_caller unauthorized_command_touches_only_caller
  handle_conversation_touches_only_caller : frame.

(** Whatever handler an update reaches, only its sender's membership
    can change. *)
Lemma step_touches_only_caller upd st J :
  J ≠ effective_user_id upd →
  isAuthenticated J (step st upd) = isAuthenticated J st.
Proof.
  intros Hne. unfold step.
  destruct (process_update upd st) as [[r st']|] eqn:Hp; [|done].
  revert Hp. unfold process_update, handlers, login_handler.
  cbn [process_update_in check_handler check_base].
  unfold check_conversation, login_entry_points, login_fallbacks.
  assert (Hcb : ∀ callback : Callback,
            touches_only_caller callback →
            Some (callback upd st) = Some (r, st') →
            isAuthenticated J st' = isAuthenticated J st).
  { intros callback Hc [= H]. rewrite <- (Hc upd st J Hne). by rewrite H. }
  destruct (conversations st !! conversation_key upd) as [s|];
    rewrite ?login_states_lookup;
    destruct (TEXT_and_not_COMMAND upd) eqn:Ht;
    repeat (progress cbn [first_accepting check_base fmap option_fmap option_map]
            || case_bool_decide || rewrite Ht);
    try congruence;
    intros Hp; (eapply Hcb; [|exact Hp]); eauto with frame.
Qed.

Lemma run_touches_only_callers (us : list Update) (st : BotState) (J : Z) :
  Forall (λ upd, effective_user_id upd ≠ J) us →
  isAuthenticated J (run us st) = isAuthenticated J st.
Proof.
  intros Hus. revert st. unfold run.
  induction Hus as [|upd us Hne _ IH]; intros st; [done|].
  cbn [foldl]. rewrite IH. by apply step_touches_only_caller.
Qed.

(** C10. The set of authenticated users holds user ids, whatever name
    was used to log in, and each handler changes the entry of the sender
    only. An accepted password adds exactly the sender; [/logout] removes
    exactly the sender; no update, whichever handler it reaches, changes
    whether another user is authenticated, and so no sequence of updates
    from other users does. Two different users who log in one after the
    other with the same pair [admin]/[admin123] are both authenticated
    at the end. *)
Theorem sessions_keyed_by_user_id :
  (∀ upd st name,
     stored_username (effective_user_id upd) st = Some name →
     VALID_CREDENTIALS !! name = Some (Py.strip (text upd)) →
     authenticated_users (receive_password upd st).2 =
       {[effective_user_id upd]} ∪ authenticated_users st)
  ∧ (∀ upd st,
       authenticated_users (logout upd st).2 =
         authenticated_users st ∖ {[effective_user_id upd]})
  ∧ (∀ upd st J,
       J ≠ effective_user_id upd →
       isAuthenticated J (step st upd) = isAuthenticated J st)
  ∧ (∀ us st J,
       Forall (λ upd, effective_user_id upd ≠ J) us →
       isAuthenticated J (run us st) = isAuthenticated J st)
  ∧ (∀ chat1 I1 chat2 I2 m1 m2 m3 m4 m5 m6 r2 r3 r5 r6 st,
       I1 ≠ I2 →
       isAuthenticated I1 st = false → isAuthenticated I2 st = false →
       Idle (chat1, I1) st → Idle (chat2, I2) st →
       let st' := run [command_update chat1 I1 m1 "login";
                       text_update chat1 I1 m2 r2 "admin";
                       text_update chat1 I1 m3 r3 "admin123";
                       command_update chat2 I2 m4 "login";
                       text_update chat2 I2 m5 r5 "admin";
                       text_update chat2 I2 m6 r6 "admin123"] st in
       isAuthenticated I1 st' = true ∧ isAuthenticated I2 st' = true).
Proof.
  split; [|split; [|split; [|split]]].
  - intros upd st name Hn Hv. rewrite receive_password_eq. cbn zeta.
    rewrite Hn, bool_decide_eq_true_2 by done. state_simpl.
    by rewrite after_delete_authenticated_users.
  - apply logout_authenticated_users.
  - intros upd st J Hne. by apply step_touches_only_caller.
  - apply run_touches_only_callers.
  - intros chat1 I1 chat2 I2 m1 m2 m3 m4 m5 m6 r2 r3 r5 r6 st
      Hne Ha1 Ha2 Hk1 Hk2 st'.
    set (first := [command_update chat1 I1 m1 "login";
                   text_update chat1 I1 m2 r2 "admin";
                   text_update chat1 I1 m3 r3 "admin123"]).
    set (second := [command_update chat2 I2 m4 "login";
                    text_update chat2 I2 m5 r5 "admin";
                    text_update chat2 I2 m6 r6 "admin123"]).
    assert (Hrun : st' = run second (run first st))
      by (subst st'; by rewrite <- run_app).
    destruct (login_attempt_outcome chat1 I1 m1 m2 m3 r2 r3 "admin" "admin123" st)
      as (Hauth1 & Hconv1 & _); [done..|].
    fold first in Hauth1, Hconv1.
    rewrite strip_admin, strip_admin123 in Hauth1.
    rewrite bool_decide_eq_true_2 in Hauth1 by reflexivity.
    assert (Ha2' : isAuthenticated I2 (run first st) = false).
    { rewrite <- Ha2. eapply isAuthenticated_add_ne; [|exact Hauth1]. done. }
    assert (Hk2' : Idle (chat2, I2) (run first st))
      by (unfold Idle; by rewrite Hconv1).
    destruct (login_attempt_outcome chat2 I2 m4 m5 m6 r5 r6 "admin" "admin123"
                (run first st))
      as (Hauth2 & _); [done..|].
    fold second in Hauth2. rewrite <- Hrun in Hauth2.
    rewrite strip_admin, strip_admin123 in Hauth2.
    rewrite bool_decide_eq_true_2 in Hauth2 by reflexivity.
    rewrite Hauth1 in Hauth2.
    split; apply isAuthenticated_true; rewrite Hauth2.
    + apply elem_of_union_r, elem_of_union_l. by apply elem_of_singleton.
    + apply elem_of_union_l. by apply elem_of_singleton.
Qed.

Lemma sessions_keyed_by_user_id_witness :
  7 ≠ 8
  ∧ isAuthenticated 7 initial_state = false
  ∧ isAuthenticated 8 initial_state = false
  ∧ Idle (7, 7) initial_state
  ∧ Idle (8, 8) initial_state
  ∧ isAuthenticated 7
      (run [command_update 7 7 1 "login";
            text_update 7 7 2 false "admin";
            text_update 7 7 3 false "admin123";
            command_update 8 8 4 "login";
            text_update 8 8 5 false "admin";
            text_update 8 8 6 false "admin123"] initial_state) = true
  ∧ isAuthenticated 8
      (run [command_update 7 7 1 "login";
            text_update 7 7 2 false "admin";
            text_update 7 7 3 false "admin123";
            command_update 8 8 4 "login";
            text_update 8 8 5 false "admin";
            text_update 8 8 6 false "admin123"] initial_state) = true.
Proof.
  assert (Hne : 7 ≠ 8) by lia.
  split; [exact Hne|]. do 4 (split; [reflexivity|]).
  destruct sessions_keyed_by_user_id as (_ & _ & _ & _ & H).
  exact (H 7 7 8 8 1 2 3 4 5 6 false false false false initial_state
           Hne eq_refl eq_refl eq_refl eq_refl).
Defined.

(** * Further properties of the bot *)

(** ** Every outcome of the handler table *)

Lemma route_start upd st :
  command upd = Some "start" → process_update upd st = Some (start upd st).
Proof.
  intros Hc. unfold process_update, handlers.
  cbn [process_update_in check_handler].
  by rewrite (check_command_eq _ "start").
Qed.

Lemma route_help upd st :
  command upd = Some "help" → process_update upd st = Some (help_command upd st).
Proof. intros Hc. route_command "help". Qed.

(** A command that [main] registers nowhere reaches no handler. *)
Lemma route_unknown upd st name :
  command upd = Some name →
  name ∉ ["start"; "login"; "cancel"; "logout"; "help";
          "info"; "stats"; "users"; "data"] →
  process_update upd st = None.
Proof.
  intros Hc Hn.
  assert (Hne : ∀ n callback,
            n ∈ ["start"; "login"; "cancel"; "logout"; "help";
                 "info"; "stats"; "users"; "data"] →
            check_base (CommandHandler n callback) upd = None).
  { intros n callback Hin. apply (check_command_ne _ n name); [done|].
    by intros ->. }
  unfold process_update, handlers, login_handler.
  cbn [process_update_in check_handler].
  unfold check_conversation, login_entry_points, login_fallbacks.
  destruct (conversations st !! conversation_key upd) as [s|];
    rewrite ?login_states_lookup;
    repeat case_bool_decide; cbn [first_accepting];
    rewrite ?(check_message_command _ name) by done;
    rewrite ?Hne by (repeat constructor);
    cbn [fmap option_fmap option_map];
    rewrite ?(check_message_command _ name) by done;
    rewrite ?Hne by (repeat constructor);
    done.
Qed.

Lemma start_eq upd st :
  start upd st =
    (Return None,
     emit (SendText (effective_chat_id upd)
             (if isAuthenticated (effective_user_id upd) st
              then Msg.already_logged_in_menu else Msg.welcome)) st).
Proof. unfold start, isAuthenticated. run_handler. by case_bool_decide. Qed.

Lemma help_command_eq upd st :
  help_command upd st =
    (Return None,
     emit (SendText (effective_chat_id upd)
             (if isAuthenticated (effective_user_id upd) st
              then Msg.help_authenticated else Msg.help_anonymous)) st).
Proof. unfold help_command, isAuthenticated. run_handler. by case_bool_decide. Qed.

Lemma unauthorized_command_eq upd st :
  unauthorized_command upd st =
    (Return None,
     if isAuthenticated (effective_user_id upd) st then st
     else emit (SendText (effective_chat_id upd) Msg.please_login) st).
Proof.
  unfold unauthorized_command, isAuthenticated. run_handler. by case_bool_decide.
Qed.

Lemma logout_eq upd st :
  logout upd st =
    (Return None,
     if isAuthenticated (effective_user_id upd) st
     then emit (LogInfo (Msg.log_logged_out (effective_user_id upd)))
            (emit (SendText (effective_chat_id upd) Msg.logged_out)
               (set_authenticated_users
                  (authenticated_users st ∖ {[effective_user_id upd]}) st))
     else emit (SendText (effective_chat_id upd) Msg.not_logged_in) st).
Proof.
  destruct (isAuthenticated (effective_user_id upd) st) eqn:Ha.
  - by apply logout_authenticated.
  - by apply logout_anonymous.
Qed.

(** A decorated body that only replies. *)
Lemma require_auth_reply (func : Callback) (body : string) upd st :
  (isAuthenticated (effective_user_id upd) st = true →
   func upd st = (Return None, emit (SendText (effective_chat_id upd) body) st)) →
  require_auth func upd st =
    (Return None,
     emit (SendText (effective_chat_id upd)
             (if isAuthenticated (effective_user_id upd) st
              then body else Msg.authentication_required)) st).
Proof.
  intros Hf. destruct (isAuthenticated (effective_user_id upd) st) eqn:Ha.
  - rewrite require_auth_authenticated by done. by apply Hf.
  - by apply require_auth_anonymous.
Qed.

Lemma info_command_eq upd st :
  info_command upd st =
    (Return None,
     emit (SendText (effective_chat_id upd)
             (if isAuthenticated (effective_user_id upd) st
              then Msg.info (Z.of_nat (size (authenticated_users st)))
              else Msg.authentication_required)) st).
Proof. by apply require_auth_reply. Qed.

Lemma stats_command_eq upd st :
  stats_command upd st =
    (Return None,
     emit (SendText (effective_chat_id upd)
             (if isAuthenticated (effective_user_id upd) st
              then Msg.stats (Z.of_nat (size (authenticated_users st)))
              else Msg.authentication_required)) st).
Proof. by apply require_auth_reply. Qed.

Lemma users_command_eq upd st :
  users_command upd st =
    (Return None,
     emit (SendText (effective_chat_id upd)
             (if isAuthenticated (effective_user_id upd) st
              then Msg.users (Z.of_nat (size (authenticated_users st)))
                     (Py.join Py.nl (Msg.user_line <$> elements (authenticated_users st)))
              else Msg.authentication_required)) st).
Proof. by apply require_auth_reply. Qed.

Lemma data_command_eq upd st :
  data_command upd st =
    (Return None,
     emit (SendText (effective_chat_id upd)
             (if isAuthenticated (effective_user_id upd) st
              then Msg.data else Msg.authentication_required)) st).
Proof. by apply require_auth_reply. Qed.

Lemma receive_password_accepted_eq upd st :
  (receive_password upd st).2 =
    if accepted upd st
    then emit (LogInfo (Msg.log_logged_in (effective_user_id upd)
                          (format_username (stored_username (effective_user_id upd) st))))
           (emit (SendText (effective_chat_id upd) Msg.login_successful)
              (set_authenticated_users
                 ({[effective_user_id upd]} ∪ authenticated_users st)
                 (after_delete upd st)))
    else emit (LogWarning (Msg.log_failed_login (effective_user_id upd)))
           (emit (SendText (effective_chat_id upd) Msg.invalid_credentials)
              (after_delete upd st)).
Proof.
  rewrite receive_password_eq. cbn zeta. cbn [snd]. unfold accepted.
  case_match; [|done]. by rewrite after_delete_authenticated_users.
Qed.

(** Plain text outside the two states of the login conversation
    reaches [unauthorized_command]. *)
Lemma route_stray_text upd st :
  command upd = None → text upd ≠ "" →
  conversations st !! conversation_key upd ≠ Some USERNAME →
  conversations st !! conversation_key upd ≠ Some PASSWORD →
  process_update upd st = Some (unauthorized_command upd st).
Proof.
  intros Hc Ht Hu Hp. rewrite route_text by done.
  destruct (conversations st !! conversation_key upd) as [s|]; [|done].
  rewrite !bool_decide_eq_false_2; [done|by intros ->..].
Qed.

(** Every outcome of [process_update] is one of the routes of
    [Handled]. *)
Lemma process_update_handled upd st res :
  process_update upd st = Some res → Handled upd st res.
Proof.
  destruct (command upd) as [name|] eqn:Hc.
  - destruct (decide (name = "start")) as [->|].
    { rewrite route_start, start_eq by done. intros [= <-]. by constructor. }
    destruct (decide (name = "help")) as [->|].
    { rewrite route_help, help_command_eq by done. intros [= <-]. by constructor. }
    destruct (decide (name = "info")) as [->|].
    { rewrite route_info, info_command_eq by done. intros [= <-]. by constructor. }
    destruct (decide (name = "stats")) as [->|].
    { rewrite route_stats, stats_command_eq by done. intros [= <-]. by constructor. }
    destruct (decide (name = "users")) as [->|].
    { rewrite route_users, users_command_eq by done. intros [= <-]. by constructor. }
    destruct (decide (name = "data")) as [->|].
    { rewrite route_data, data_command_eq by done. intros [= <-]. by constructor. }
    destruct (decide (name = "logout")) as [->|].
    { rewrite route_logout, logout_eq by done. intros [= <-]. by constructor. }
    destruct (decide (name = "login")) as [->|].
    { rewrite route_login by done.
      destruct (conversations st !! conversation_key upd) as [s|] eqn:Hk; [done|].
      intros [= <-].
      destruct (isAuthenticated (effective_user_id upd) st) eqn:Ha.
      - pose proof (process_login_authenticated upd st Hc Hk Ha) as Hp.
        rewrite route_login, Hk in Hp by done. injection Hp as ->.
        pose proof (Handled_login upd st Hc Hk) as H. by rewrite Ha in H.
      - pose proof (process_login_anonymous upd st Hc Hk Ha) as Hp.
        rewrite route_login, Hk in Hp by done. injection Hp as ->.
        pose proof (Handled_login upd st Hc Hk) as H. by rewrite Ha in H. }
    destruct (decide (name = "cancel")) as [->|].
    { destruct (conversations st !! conversation_key upd) as [s|] eqn:Hk.
      - rewrite (process_cancel upd st s) by done. intros [= <-].
        by apply (Handled_cancel upd st s).
      - rewrite route_cancel, Hk by done. done. }
    rewrite (route_unknown upd st name); [done|done|].
    rewrite !elem_of_cons, elem_of_nil. tauto.
  - destruct (decide (text upd = "")) as [Ht|Ht].
    { by rewrite route_empty_text. }
    destruct (decide (conversations st !! conversation_key upd = Some USERNAME))
      as [Hu|Hu].
    { rewrite process_username by done. intros [= <-]. by constructor. }
    destruct (decide (conversations st !! conversation_key upd = Some PASSWORD))
      as [Hp|Hp].
    { rewrite process_password by done. cbn zeta.
      rewrite receive_password_accepted_eq. intros [= <-]. by constructor. }
    rewrite route_stray_text by done.
    rewrite unauthorized_command_eq. intros [= <-]. by constructor.
Qed.


(** [step] on an update that a handler accepts. *)
Lemma step_handled upd st :
  step st upd = st
  ∨ ∃ r st', Handled upd st (r, st') ∧ step st upd = st'.
Proof.
  unfold step. destruct (process_update upd st) as [[r st']|] eqn:Hp; [|by left].
  right. exists r, st'. split; [|done]. by apply process_update_handled.
Qed.


(** ** No exception leaves a handler *)



(** ** What an update can make the bot send *)

(** X2. Handling an update only appends to the trace, and what it
    appends concerns the sender alone: at most one text, sent to the
    chat the update came from, at most the deletion of the update's own
    message, and log lines. *)
Theorem update_effects (upd : Update) (st : BotState) :
  ∃ es,
    trace (step st upd) = trace st ++ es
    ∧ Forall (addressed_to upd) es
    ∧ (length (sent es) ≤ 1)%nat.
Proof.
  assert (Hnil : ∃ es, trace st = trace st ++ es
                       ∧ Forall (addressed_to upd) es
                       ∧ (length (sent es) ≤ 1)%nat).
  { exists []. rewrite app_nil_r. repeat split; [constructor|cbn; lia]. }
  assert (H2 : ∀ l a b : list Effect, (l ++ a) ++ b = l ++ (a ++ b))
    by (intros; by rewrite app_assoc).
  assert (H3 : ∀ l a b c : list Effect, ((l ++ a) ++ b) ++ c = l ++ (a ++ b ++ c))
    by (intros; by rewrite !app_assoc).
  destruct (step_handled upd st) as [->|(r & st' & H & ->)]; [done|].
  inversion H; subst; clear H;
    repeat match goal with
           | H : (if ?b then _ else _) = (_, _) |- _ => destruct b eqn:?; simplify_eq
           | |- context [if ?b then _ else _] => destruct b eqn:?
           end;
    state_simpl; rewrite ?after_delete_trace;
    try destruct (delete_raises upd);
    try done;
    (eexists; split; [first [apply H3|apply H2|reflexivity]|]);
    (split; [repeat constructor|cbn; lia]).
Qed.

(** ** Commands that only answer *)



(** ** Updates that reach no handler *)



(** ** The list of active users *)




(** ** What a handled update changes *)

Ltac handled_cases H :=
  inversion H; subst; clear H;
  repeat match goal with
         | H : (if ?b then _ else _) = (_, _) |- _ => destruct b eqn:?; simplify_eq
         end.

(** The set of authenticated users after a handled update: as before,
    or without the sender after [/logout], or with the sender after an
    accepted password. *)
Lemma handled_authenticated_users upd st r st' :
  Handled upd st (r, st') →
  authenticated_users st' = authenticated_users st
  ∨ (command upd = Some "logout"
     ∧ authenticated_users st' = authenticated_users st ∖ {[effective_user_id upd]})
  ∨ (command upd = None ∧ text upd ≠ ""
     ∧ AwaitingPassword (conversation_key upd) st
     ∧ accepted upd st = true
     ∧ authenticated_users st' = {[effective_user_id upd]} ∪ authenticated_users st).
Proof.
  intros H. handled_cases H; try (by left).
  - destruct (isAuthenticated (effective_user_id upd) st); [|by left].
    right. by left.
  - destruct (accepted upd st) eqn:Hok; state_simpl.
    + right. right. by rewrite ?after_delete_authenticated_users.
    + left. by rewrite ?after_delete_authenticated_users.
  - by destruct (isAuthenticated (effective_user_id upd) st); left.
Qed.

(** The user data after a handled update: as before, or with the
    sender's username replaced by the trimmed text of the username
    step. *)
Lemma handled_user_data upd st r st' :
  Handled upd st (r, st') →
  user_data st' = user_data st
  ∨ (command upd = None ∧ text upd ≠ ""
     ∧ AwaitingUsername (conversation_key upd) st
     ∧ user_data st' =
         <[effective_user_id upd :=
             <["username" := Py.strip (text upd)]>
               (user_data_of (effective_user_id upd) st)]> (user_data st)).
Proof.
  intros H. handled_cases H; try (by left).
  - by destruct (isAuthenticated (effective_user_id upd) st); left.
  - by right.
  - left. destruct (accepted upd st); state_simpl;
      by rewrite after_delete_user_data.
  - by destruct (isAuthenticated (effective_user_id upd) st); left.
Qed.

(** The conversation table after a handled update: as before, or
    changed at the key of the update only. *)
Lemma handled_conversations upd st r st' :
  Handled upd st (r, st') →
  conversations st' = conversations st
  ∨ (r = Return (Some USERNAME)
     ∧ conversations st' = <[conversation_key upd := USERNAME]> (conversations st))
  ∨ (r = Return (Some PASSWORD)
     ∧ stored_username (effective_user_id upd) st' = Some (Py.strip (text upd))
     ∧ conversations st' = <[conversation_key upd := PASSWORD]> (conversations st))
  ∨ (r = Return (Some END)
     ∧ conversations st' = delete (conversation_key upd) (conversations st)).
Proof.
  intros H. handled_cases H; try (by left).
  - right. by left.
  - do 3 right. done.
  - by destruct (isAuthenticated (effective_user_id upd) st); left.
  - right. right. left. split; [done|]. split; [|done].
    unfold stored_username, user_data_of. state_simpl.
    rewrite lookup_insert_eq. cbn [default]. apply lookup_insert_eq.
  - do 3 right. done.
  - by destruct (isAuthenticated (effective_user_id upd) st); left.
Qed.

(** ** How a user gets in and out *)

(** X6. The only update that makes a user authenticated is that user's
    own plain text, received while the conversation waits for the
    password, when the username stored for the user is a key of
    [VALID_CREDENTIALS] whose secret is the trimmed text. *)
Theorem granted_only_by_password (upd : Update) (st : BotState) (J : Z) :
  isAuthenticated J st = false →
  isAuthenticated J (step st upd) = true →
  J = effective_user_id upd
  ∧ command upd = None
  ∧ text upd ≠ ""
  ∧ AwaitingPassword (conversation_key upd) st
  ∧ ∃ name, stored_username J st = Some name
            ∧ VALID_CREDENTIALS !! name = Some (Py.strip (text upd)).
Proof.
  intros Hb Ha. apply isAuthenticated_false in Hb. apply isAuthenticated_true in Ha.
  destruct (step_handled upd st) as [Hs|(r & st' & H & Hs)]; rewrite Hs in Ha;
    [done|]. clear Hs.
  destruct (handled_authenticated_users _ _ _ _ H)
    as [Heq|[[_ Heq]|(Hc & Ht & Hk & Hok & Heq)]]; rewrite Heq in Ha.
  - done.
  - apply elem_of_difference in Ha. tauto.
  - apply elem_of_union in Ha as [Ha|Ha]; [|done].
    apply elem_of_singleton in Ha as ->.
    repeat split; try done.
    unfold accepted in Hok.
    destruct (stored_username (effective_user_id upd) st) as [name|]; [|done].
    exists name. split; [done|]. by apply bool_decide_eq_true in Hok.
Qed.

Lemma granted_only_by_password_witness :
  isAuthenticated 7
    (run [command_update 7 7 1 "login"; text_update 7 7 2 false "demo"]
         initial_state) = false
  ∧ isAuthenticated 7
      (step (run [command_update 7 7 1 "login"; text_update 7 7 2 false "demo"]
                 initial_state)
            (text_update 7 7 3 false " demo123")) = true
  ∧ ∃ name,
      stored_username 7
        (run [command_update 7 7 1 "login"; text_update 7 7 2 false "demo"]
             initial_state) = Some name
      ∧ VALID_CREDENTIALS !! name = Some (Py.strip " demo123").
Proof.
  split; [reflexivity|]. split; [reflexivity|].
  destruct (granted_only_by_password (text_update 7 7 3 false " demo123")
              (run [command_update 7 7 1 "login"; text_update 7 7 2 false "demo"]
                   initial_state) 7 eq_refl eq_refl) as (_ & _ & _ & _ & H).
  exact H.
Defined.



(** ** Updates of one user leave the others alone *)

Lemma step_conversations_frame upd st k :
  k ≠ conversation_key upd →
  conversations (step st upd) !! k = conversations st !! k.
Proof.
  intros Hne.
  destruct (step_handled upd st) as [->|(r & st' & H & ->)]; [done|].
  destruct (handled_conversations _ _ _ _ H)
    as [->|[[_ ->]|[(_ & _ & ->)|[_ ->]]]];
    by rewrite ?lookup_insert_ne, ?lookup_delete_ne by done.
Qed.

Lemma step_user_data_frame upd st J :
  J ≠ effective_user_id upd →
  user_data (step st upd) !! J = user_data st !! J.
Proof.
  intros Hne.
  destruct (step_handled upd st) as [->|(r & st' & H & ->)]; [done|].
  destruct (handled_user_data _ _ _ _ H) as [->|(_ & _ & _ & ->)];
    by rewrite ?lookup_insert_ne by done.
Qed.

(** X8. An update changes the login attempt of its sender only: the
    conversation of every other chat and user, and the user data of
    every other user, are after the update what they were before. *)
Theorem other_attempts_untouched (upd : Update) (st : BotState) :
  (∀ k, k ≠ conversation_key upd →
        conversations (step st upd) !! k = conversations st !! k)
  ∧ (∀ J, J ≠ effective_user_id upd →
          user_data (step st upd) !! J = user_data st !! J
          ∧ stored_username J (step st upd) = stored_username J st).
Proof.
  split.
  - intros k Hk. by apply step_conversations_frame.
  - intros J HJ. split; [by apply step_user_data_frame|].
    unfold stored_username, user_data_of. by rewrite step_user_data_frame.
Qed.

Lemma other_attempts_untouched_witness :
  8 ≠ effective_user_id (text_update 7 7 2 false "admin")
  ∧ stored_username 8
      (step (run [command_update 8 8 1 "login"; text_update 8 8 2 false "demo";
                  command_update 7 7 1 "login"] initial_state)
            (text_update 7 7 2 false "admin"))
    = stored_username 8
        (run [command_update 8 8 1 "login"; text_update 8 8 2 false "demo";
              command_update 7 7 1 "login"] initial_state).
Proof.
  assert (Hne : 8 ≠ effective_user_id (text_update 7 7 2 false "admin"))
    by (simpl; lia).
  split; [exact Hne|].
  destruct (other_attempts_untouched (text_update 7 7 2 false "admin")
              (run [command_update 8 8 1 "login"; text_update 8 8 2 false "demo";
                    command_update 7 7 1 "login"] initial_state)) as [_ H].
  exact (proj2 (H 8 Hne)).
Defined.






(** ** An invariant of the conversation table *)

Lemma handled_keeps_username upd st r st' (u : Z) :
  Handled upd st (r, st') →
  is_Some (stored_username u st) → is_Some (stored_username u st').
Proof.
  intros H Hu. unfold stored_username, user_data_of in *.
  destruct (handled_user_data _ _ _ _ H) as [->|(_ & _ & _ & ->)]; [done|].
  destruct (decide (u = effective_user_id upd)) as [->|Hne].
  - exists (Py.strip (text upd)). rewrite lookup_insert_eq. apply lookup_insert_eq.
  - by rewrite lookup_insert_ne.
Qed.

Lemma step_conversations_wf upd st :
  conversations_wf st → conversations_wf (step st upd).
Proof.
  intros Hwf.
  destruct (step_handled upd st) as [->|(r & st' & H & ->)]; [done|].
  assert (Hold : ∀ chat user s,
            conversations st !! (chat, user) = Some s →
            s = USERNAME ∨ s = PASSWORD ∧ is_Some (stored_username user st')).
  { intros chat user s Hs. destruct (Hwf chat user s Hs) as [?|[? ?]]; [by left|].
    right. split; [done|]. by eapply handled_keeps_username. }
  intros chat user s.
  destruct (handled_conversations _ _ _ _ H)
    as [->|[[_ ->]|[(_ & Hu & ->)|[_ ->]]]].
  - apply Hold.
  - destruct (decide ((chat, user) = conversation_key upd)) as [->|Hne].
    + rewrite lookup_insert_eq. intros [= <-]. by left.
    + rewrite lookup_insert_ne by done. apply Hold.
  - destruct (decide ((chat, user) = conversation_key upd)) as [Heq|Hne].
    + rewrite Heq, lookup_insert_eq. intros [= <-]. right. split; [done|].
      injection Heq as _ ->. by eexists.
    + rewrite lookup_insert_ne by done. apply Hold.
  - destruct (decide ((chat, user) = conversation_key upd)) as [->|Hne].
    + by rewrite lookup_delete_eq.
    + rewrite lookup_delete_ne by done. apply Hold.
Qed.

(** X10. Whatever updates arrive after a cold start, the conversation
    table holds only the states [USERNAME] and [PASSWORD], and whenever
    a conversation waits for the password a username is stored for its
    user: through the handler table [receive_password] never finds
    [user_data] without ['username']. *)
Theorem conversations_always_wf (us : list Update) :
  conversations_wf (run us initial_state)
  ∧ ∀ chat user,
      AwaitingPassword (chat, user) (run us initial_state) →
      is_Some (stored_username user (run us initial_state)).
Proof.
  assert (Hwf : conversations_wf (run us initial_state)).
  { assert (Hall : ∀ st, conversations_wf st → conversations_wf (run us st)).
    { unfold run. induction us as [|u us IH]; intros st Hst; [done|].
      cbn [foldl]. apply IH. by apply step_conversations_wf. }
    apply Hall. by intros chat user s Hs. }
  split; [done|].
  intros chat user Hk.
  destruct (Hwf _ _ _ Hk) as [Hs|[_ Hu]]; [done|done].
Qed.

Lemma conversations_always_wf_witness :
  AwaitingPassword (7, 7)
    (run [command_update 7 7 1 "login"; text_update 7 7 2 false "nouser"]
         initial_state)
  ∧ is_Some (stored_username 7
               (run [command_update 7 7 1 "login"; text_update 7 7 2 false "nouser"]
                    initial_state)).
Proof.
  split; [reflexivity|].
  exact (proj2 (conversations_always_wf
                  [command_update 7 7 1 "login"; text_update 7 7 2 false "nouser"])
           7 7 eq_refl).
Defined.

(** ** Whole login attempts *)

(** X11. A login attempt of a user who is not logged in, started with
    no conversation open, ends with the user authenticated exactly when
    the trimmed username is a key of [VALID_CREDENTIALS] whose secret is
    the trimmed password; either way the conversation is closed again
    and nobody else's session has changed. *)
Theorem login_attempt_decides
    (chat I m1 m2 m3 : Z) (r2 r3 : bool) (name secret : string) (st : BotState) :
  isAuthenticated I st = false → Idle (chat, I) st →
  name ≠ "" → secret ≠ "" →
  let st' := run [command_update chat I m1 "login";
                  text_update chat I m2 r2 name;
                  text_update chat I m3 r3 secret] st in
  isAuthenticated I st' =
    bool_decide (VALID_CREDENTIALS !! Py.strip name = Some (Py.strip secret))
  ∧ Idle (chat, I) st'
  ∧ ∀ J, J ≠ I → isAuthenticated J st' = isAuthenticated J st.
Proof.
  intros Ha Hk Hn Hs st'.
  destruct (login_attempt_outcome chat I m1 m2 m3 r2 r3 name secret st)
    as (Hauth & Hconv & _); [done..|].
  fold st' in Hauth, Hconv. split; [|split].
  - case_bool_decide.
    + apply isAuthenticated_true. rewrite Hauth.
      apply elem_of_union_l. by apply elem_of_singleton.
    + rewrite <- Ha. by apply isAuthenticated_ext.
  - unfold Idle. by rewrite Hconv.
  - intros J HJ. case_bool_decide.
    + by eapply isAuthenticated_add_ne.
    + by apply isAuthenticated_ext.
Qed.

Lemma login_attempt_decides_witness :
  isAuthenticated 7 initial_state = false
  ∧ Idle (7, 7) initial_state
  ∧ " user1" ≠ "" ∧ "pass123 " ≠ ""
  ∧ isAuthenticated 7
      (run [command_update 7 7 1 "login"; text_update 7 7 2 false " user1";
            text_update 7 7 3 true "pass123 "] initial_state)
    = bool_decide (VALID_CREDENTIALS !! Py.strip " user1" = Some (Py.strip "pass123 ")).
Proof.
  assert (H1 : " user1" ≠ "") by discriminate.
  assert (H2 : "pass123 " ≠ "") by discriminate.
  split; [reflexivity|]. split; [reflexivity|]. split; [exact H1|]. split; [exact H2|].
  destruct (login_attempt_decides 7 7 1 2 3 false true " user1" "pass123 "
              initial_state eq_refl eq_refl H1 H2) as [H _].
  exact H.
Defined.

Lemma step_text_anonymous upd st :
  command upd = None → text upd ≠ "" → Idle (conversation_key upd) st →
  isAuthenticated (effective_user_id upd) st = false →
  step st upd = emit (SendText (effective_chat_id upd) Msg.please_login) st.
Proof.
  intros Hc Ht Hk Ha. unfold step, Idle in *.
  rewrite route_stray_text, unauthorized_command_eq, Ha; [done..| |];
    by rewrite Hk.
Qed.

(** X12. A closed attempt is not resumed. After a rejected password, and
    after [/cancel] at the password prompt, a further plain text of the
    user in that chat, were it the right password, only gets the answer
    "Please /login first" and leaves the user not authenticated. *)
Theorem closed_attempt_needs_new_login
    (chat I m1 m2 m3 : Z) (r2 r3 : bool) (name secret : string)
    (upd : Update) (st : BotState) :
  isAuthenticated I st = false → Idle (chat, I) st →
  name ≠ "" → secret ≠ "" →
  conversation_key upd = (chat, I) → command upd = None → text upd ≠ "" →
  let rejected := run [command_update chat I m1 "login";
                       text_update chat I m2 r2 name;
                       text_update chat I m3 r3 secret] st in
  let cancelled := run [command_update chat I m1 "login";
                        text_update chat I m2 r2 name;
                        command_update chat I m3 "cancel"] st in
  (VALID_CREDENTIALS !! Py.strip name ≠ Some (Py.strip secret) →
   step rejected upd = emit (SendText chat Msg.please_login) rejected
   ∧ isAuthenticated I (step rejected upd) = false)
  ∧ step cancelled upd = emit (SendText chat Msg.please_login) cancelled
  ∧ isAuthenticated I (step cancelled upd) = false.
Proof.
  intros Ha Hk Hn Hs Hkey Hc Ht rejected cancelled.
  assert (HI : effective_user_id upd = I) by (by injection Hkey).
  assert (Hchat : effective_chat_id upd = chat) by (by injection Hkey).
  assert (Hclosed : ∀ st',
            conversations st' = conversations st →
            authenticated_users st' = authenticated_users st →
            step st' upd = emit (SendText chat Msg.please_login) st'
            ∧ isAuthenticated I (step st' upd) = false).
  { intros st' Hconv Hauth.
    assert (Hstep : step st' upd = emit (SendText chat Msg.please_login) st').
    { rewrite <- Hchat. apply step_text_anonymous; [done|done| |].
      - unfold Idle. by rewrite Hkey, Hconv.
      - rewrite HI, <- Ha. by apply isAuthenticated_ext. }
    split; [done|]. rewrite Hstep, <- Ha. by apply isAuthenticated_ext. }
  split.
  - intros Hv.
    destruct (login_attempt_outcome chat I m1 m2 m3 r2 r3 name secret st)
      as (Hauth & Hconv & _); [done..|].
    rewrite bool_decide_eq_false_2 in Hauth by done.
    by apply Hclosed.
  - apply Hclosed; subst cancelled; by rewrite run_login_cancelled.
Qed.

Lemma closed_attempt_needs_new_login_witness :
  isAuthenticated 7 initial_state = false
  ∧ Idle (7, 7) initial_state
  ∧ VALID_CREDENTIALS !! Py.strip "admin" ≠ Some (Py.strip "wrong")
  ∧ isAuthenticated 7
      (step (run [command_update 7 7 1 "login"; text_update 7 7 2 false "admin";
                  text_update 7 7 3 false "wrong"] initial_state)
            (text_update 7 7 4 false "admin123")) = false.
Proof.
  assert (H1 : "admin" ≠ "") by discriminate.
  assert (H2 : "wrong" ≠ "") by discriminate.
  assert (H3 : text (text_update 7 7 4 false "admin123") ≠ "") by (simpl; discriminate).
  assert (Hv : VALID_CREDENTIALS !! Py.strip "admin" ≠ Some (Py.strip "wrong"))
    by (vm_compute; discriminate).
  split; [reflexivity|]. split; [reflexivity|]. split; [exact Hv|].
  destruct (closed_attempt_needs_new_login 7 7 1 2 3 false false "admin" "wrong"
              (text_update 7 7 4 false "admin123") initial_state
              eq_refl eq_refl H1 H2 eq_refl eq_refl H3) as [H _].
  exact (proj2 (H Hv)).
Defined.

(** ** Logging out *)

Lemma step_logout upd st :
  command upd = Some "logout" →
  step st upd = (logout upd st).2.
Proof. intros Hc. unfold step. by rewrite route_logout. Qed.

(** X13. [/logout] works at any point of a conversation and never
    touches it: the conversation table and the user data are as before,
    only the sender leaves [authenticated_users]. In particular an
    accepted login followed by [/logout] gives back the authenticated
    users and the conversations the attempt started from. *)
Theorem logout_round_trip
    (chat I m1 m2 m3 m4 : Z) (r2 r3 : bool) (name secret : string) (st : BotState) :
  (∀ upd st0,
     command upd = Some "logout" →
     conversations (step st0 upd) = conversations st0
     ∧ user_data (step st0 upd) = user_data st0
     ∧ authenticated_users (step st0 upd) =
         authenticated_users st0 ∖ {[effective_user_id upd]})
  ∧ (isAuthenticated I st = false → Idle (chat, I) st →
     name ≠ "" → secret ≠ "" →
     VALID_CREDENTIALS !! Py.strip name = Some (Py.strip secret) →
     let st' := run [command_update chat I m1 "login";
                     text_update chat I m2 r2 name;
                     text_update chat I m3 r3 secret;
                     command_update chat I m4 "logout"] st in
     authenticated_users st' = authenticated_users st
     ∧ conversations st' = conversations st
     ∧ isAuthenticated I st' = false).
Proof.
  assert (Hlogout : ∀ upd st0,
     command upd = Some "logout" →
     conversations (step st0 upd) = conversations st0
     ∧ user_data (step st0 upd) = user_data st0
     ∧ authenticated_users (step st0 upd) =
         authenticated_users st0 ∖ {[effective_user_id upd]}).
  { intros upd st0 Hc. rewrite step_logout by done.
    split; [|split; [|apply logout_authenticated_users]];
      rewrite logout_eq; by case_match. }
  split; [done|].
  intros Ha Hk Hn Hs Hv st'.
  destruct (login_attempt_outcome chat I m1 m2 m3 r2 r3 name secret st)
    as (Hauth & Hconv & _); [done..|].
  rewrite bool_decide_eq_true_2 in Hauth by done.
  destruct (Hlogout (command_update chat I m4 "logout")
              (run [command_update chat I m1 "login";
                    text_update chat I m2 r2 name;
                    text_update chat I m3 r3 secret] st) eq_refl)
    as (Hc' & _ & Ha').
  change (step (run [command_update chat I m1 "login";
                     text_update chat I m2 r2 name;
                     text_update chat I m3 r3 secret] st)
               (command_update chat I m4 "logout")) with st' in Hc', Ha'.
  cbn [effective_user_id command_update] in Ha'.
  apply isAuthenticated_false in Ha.
  assert (Hset : authenticated_users st' = authenticated_users st).
  { rewrite Ha', Hauth. apply set_eq. intros J.
    rewrite elem_of_difference, elem_of_union, elem_of_singleton.
    split; [tauto|]. intros HJ. split; [tauto|]. by intros ->. }
  split; [done|]. split; [by rewrite Hc', Hconv|].
  apply isAuthenticated_false. by rewrite Hset.
Qed.

Lemma logout_round_trip_witness :
  isAuthenticated 7 initial_state = false
  ∧ Idle (7, 7) initial_state
  ∧ VALID_CREDENTIALS !! Py.strip "demo" = Some (Py.strip "demo123")
  ∧ authenticated_users
      (run [command_update 7 7 1 "login"; text_update 7 7 2 false "demo";
            text_update 7 7 3 false "demo123"; command_update 7 7 4 "logout"]
           initial_state)
    = authenticated_users initial_state.
Proof.
  assert (H1 : "demo" ≠ "") by discriminate.
  assert (H2 : "demo123" ≠ "") by discriminate.
  split; [reflexivity|]. split; [reflexivity|]. split; [reflexivity|].
  destruct (logout_round_trip 7 7 1 2 3 4 false false "demo" "demo123" initial_state)
    as [_ H].
  destruct (H eq_refl eq_refl H1 H2 eq_refl) as [H' _].
  exact H'.
Defined.

(** ** The number of active users *)

(** X14. [len(authenticated_users)], the number that [/info] and
    [/stats] show, goes up by exactly one with an accepted login of a
    user who was not logged in, and down by exactly one with the
    [/logout] of a user who was; a [/logout] of a user who was not
    logged in leaves it as it is. *)
Theorem active_users_count
    (chat I m1 m2 m3 : Z) (r2 r3 : bool) (name secret : string)
    (upd : Update) (st : BotState) :
  (isAuthenticated I st = false → Idle (chat, I) st →
   name ≠ "" → secret ≠ "" →
   VALID_CREDENTIALS !! Py.strip name = Some (Py.strip secret) →
   size (authenticated_users
           (run [command_update chat I m1 "login";
                 text_update chat I m2 r2 name;
                 text_update chat I m3 r3 secret] st))
   = S (size (authenticated_users st)))
  ∧ (command upd = Some "logout" →
     isAuthenticated (effective_user_id upd) st = true →
     S (size (authenticated_users (step st upd))) = size (authenticated_users st))
  ∧ (command upd = Some "logout" →
     isAuthenticated (effective_user_id upd) st = false →
     size (authenticated_users (step st upd)) = size (authenticated_users st)).
Proof.
  split; [|split].
  - intros Ha Hk Hn Hs Hv.
    destruct (login_attempt_outcome chat I m1 m2 m3 r2 r3 name secret st)
      as (Hauth & _); [done..|].
    rewrite bool_decide_eq_true_2 in Hauth by done. rewrite Hauth.
    apply isAuthenticated_false in Ha.
    rewrite size_union by (apply disjoint_singleton_l; done).
    by rewrite size_singleton.
  - intros Hc Ha. rewrite step_logout, logout_authenticated_users by done.
    apply isAuthenticated_true in Ha.
    rewrite size_difference by (by apply singleton_subseteq_l).
    rewrite size_singleton.
    assert (size (authenticated_users st) ≠ 0%nat)
      by (intros H0; apply size_empty_inv in H0; by apply (H0 (effective_user_id upd)) in Ha).
    lia.
  - intros Hc Ha. rewrite step_logout, logout_anonymous by done. done.
Qed.

Lemma active_users_count_witness :
  command (command_update 7 7 4 "logout") = Some "logout"
  ∧ isAuthenticated 7
      (run [command_update 7 7 1 "login"; text_update 7 7 2 false "demo";
            text_update 7 7 3 false "demo123"] initial_state) = true
  ∧ S (size (authenticated_users
               (step (run [command_update 7 7 1 "login"; text_update 7 7 2 false "demo";
                           text_update 7 7 3 false "demo123"] initial_state)
                     (command_update 7 7 4 "logout"))))
    = size (authenticated_users
              (run [command_update 7 7 1 "login"; text_update 7 7 2 false "demo";
                    text_update 7 7 3 false "demo123"] initial_state)).
Proof.
  split; [reflexivity|]. split; [reflexivity|].
  destruct (active_users_count 7 7 1 2 3 false false "demo" "demo123"
              (command_update 7 7 4 "logout")
              (run [command_update 7 7 1 "login"; text_update 7 7 2 false "demo";
                    text_update 7 7 3 false "demo123"] initial_state))
    as (_ & H & _).
  exact (H eq_refl eq_refl).
Defined.

(** ** Start-up *)



(** ** Deleting the password message *)

(** X16. Whether the transport deletes the password message or refuses
    makes no difference to the login: the authenticated users, the user
    data, the conversations and the texts sent are the same in both
    cases. At the password step the deletion, when it goes through, comes
    first, before the answer. *)
Theorem deletion_is_best_effort (chat I mid : Z) (body : string) (st : BotState) :
  let deleted := step st (text_update chat I mid false body) in
  let refused := step st (text_update chat I mid true body) in
  same_store deleted refused
  ∧ sent (trace deleted) = sent (trace refused)
  ∧ (AwaitingPassword (chat, I) st → body ≠ "" →
     ∃ es, trace deleted = trace st ++ DeleteMessage chat mid :: es
           ∧ trace refused = trace st ++ es
           ∧ (length (sent es) = 1)%nat).
Proof.
  intros deleted refused. subst deleted refused.
  assert (Hsent : ∀ l es, sent (l ++ es) = sent l ++ sent es)
    by (intros; apply omap_app).
  destruct (decide (body = "")) as [->|Hb].
  { unfold step. rewrite !route_empty_text by done.
    split; [done|]. split; [done|]. by intros _ ?. }
  destruct (decide (conversations st !! (chat, I) = Some PASSWORD)) as [Hp|Hp].
  - unfold step. rewrite !process_password by done. cbn zeta.
    rewrite !receive_password_accepted_eq.
    change (accepted (text_update chat I mid true body) st)
      with (accepted (text_update chat I mid false body) st).
    unfold after_delete. state_simpl.
    assert (Happ : ∀ (l : list Effect) a b c, ((l ++ [a]) ++ [b]) ++ [c] = l ++ a :: [b; c])
      by (intros; by rewrite <- !app_assoc).
    destruct (accepted (text_update chat I mid false body) st).
    + split; [unfold same_store; state_simpl; repeat split|].
      state_simpl. split.
      * rewrite !Hsent. cbn. by rewrite !app_nil_r.
      * intros _ _. eexists. split; [apply Happ|]. split; [|reflexivity].
        by rewrite <- app_assoc.
    + split; [unfold same_store; state_simpl; repeat split|].
      state_simpl. split.
      * rewrite !Hsent. cbn. by rewrite !app_nil_r.
      * intros _ _. eexists. split; [apply Happ|]. split; [|reflexivity].
        by rewrite <- app_assoc.
  - assert (Hsame : step st (text_update chat I mid false body) =
                    step st (text_update chat I mid true body)).
    { unfold step.
      destruct (decide (conversations st !! (chat, I) = Some USERNAME)) as [Hu|Hu].
      - by rewrite !process_username.
      - by rewrite !route_stray_text, !unauthorized_command_eq. }
    rewrite Hsame. split; [done|]. split; [done|]. by intros ?.
Qed.

Lemma deletion_is_best_effort_witness :
  AwaitingPassword (7, 7)
    (run [command_update 7 7 1 "login"; text_update 7 7 2 false "admin"] initial_state)
  ∧ "admin123" ≠ ""
  ∧ ∃ es,
      trace (step (run [command_update 7 7 1 "login"; text_update 7 7 2 false "admin"]
                       initial_state)
                  (text_update 7 7 3 false "admin123"))
      = trace (run [command_update 7 7 1 "login"; text_update 7 7 2 false "admin"]
                   initial_state)
        ++ DeleteMessage 7 3 :: es
      ∧ trace (step (run [command_update 7 7 1 "login"; text_update 7 7 2 false "admin"]
                         initial_state)
                    (text_update 7 7 3 true "admin123"))
        = trace (run [command_update 7 7 1 "login"; text_update 7 7 2 false "admin"]
                     initial_state) ++ es
      ∧ (length (sent es) = 1)%nat.
Proof.
  assert (H2 : "admin123" ≠ "") by discriminate.
  split; [reflexivity|]. split; [exact H2|].
  destruct (deletion_is_best_effort 7 7 3 "admin123"
              (run [command_update 7 7 1 "login"; text_update 7 7 2 false "admin"]
                   initial_state)) as (_ & _ & H).
  exact (H eq_refl H2).
Defined.
